(** * DocReader-AI front end: session hook, library browser, upgrade prompt

  A shallow embedding of the three front-end units of the repository

    - [src/frontend/src/hooks/useAuth.js]                  (module [UseAuth])
    - [src/frontend/src/components/library/Library.jsx]    (module [Library])
    - [src/frontend/src/components/auth/UpgradePrompt.jsx] (module [UpgradePrompt])

  together with the properties their specification states about them.

  React state is modelled by explicit state passing: every handler is a
  computation in a small state-and-exception monad over the component's
  "world" (its [useState] cells, the browser storage it writes and the
  externally visible calls it makes).  Whatever the environment answers
  (the reply of a [fetch], the answer to [window.confirm], the result of
  [window.open], the behaviour of a callback prop) is an argument of the
  handler. *)

From Stdlib Require Import ZArith String Ascii List Bool Lia.
From stdpp Require Import base gmap strings.

#[local] Set Warnings "-register-all".

Open Scope string_scope.
Open Scope list_scope.
Open Scope Z_scope.

(* ===================================================================== *)
(** * JavaScript values and the operators the sources use                 *)
(* ===================================================================== *)

Module Js.

(** Numbers.  The counters the backend reports are integers; [NaN] is
    what arithmetic and comparisons produce on a missing operand.  A
    number is a double: every integer up to [MAX_SAFE_INTEGER] in absolute
    value is one, and sums and differences that stay in that range are
    exact. *)
Inductive Num : Type :=
| Int (z : Z)
| NaN.

(** [Number.MAX_SAFE_INTEGER], 2^53 - 1. *)
Definition MAX_SAFE_INTEGER : Z := 9007199254740991.

(** [Number.isSafeInteger(z)] *)
Definition safe (z : Z) : bool :=
  (- MAX_SAFE_INTEGER <=? z) && (z <=? MAX_SAFE_INTEGER).

(** The values [JSON.parse] can return, plus [undefined]. *)
Inductive Value : Type :=
| Undefined
| Null
| Bool (b : bool)
| Number (n : Num)
| Str (s : string)
| Object (props : list (string * Value))
| Array (items : list Value).

(** Built-ins of the host that the sources call and whose definition is
    not part of the repository. *)
Record Runtime : Type := {
  StringToNumber : string -> Num;      (* numeric value of a string *)
  ToString : Value -> string;          (* String(v)                 *)
  JSON_stringify : Value -> Value;     (* JSON.stringify(v)         *)
  subtract : Z -> Z -> Num             (* a - b on doubles, where the
                                          integers are not all exact *)
}.

Definition num (z : Z) : Value := Number (Int z).

(** ToBoolean: [if (v)], [!v], [a || b]. *)
Definition truthy (v : Value) : bool :=
  match v with
  | Undefined | Null => false
  | Bool b => b
  | Number (Int z) => negb (z =? 0)
  | Number NaN => false
  | Str s => negb (String.eqb s "")
  | Object _ | Array _ => true
  end.

(** [a || b] *)
Definition or (a b : Value) : Value := if truthy a then a else b.

Definition nullish (v : Value) : bool :=
  match v with
  | Undefined | Null => true
  | _ => false
  end.

(** [a ?? b] *)
Definition coalesce (a b : Value) : Value := if nullish a then b else a.

(** ToNumber.  Objects and arrays go through their string form. *)
Definition ToNumber (rt : Runtime) (v : Value) : Num :=
  match v with
  | Undefined => NaN
  | Null => Int 0
  | Bool b => Int (if b then 1 else 0)
  | Number n => n
  | Str s => StringToNumber rt s
  | Object _ | Array _ => StringToNumber rt (ToString rt v)
  end.

(** [v > z] for a number literal [z]. *)
Definition gt (rt : Runtime) (v : Value) (z : Z) : bool :=
  match ToNumber rt v with
  | Int x => z <? x
  | NaN => false
  end.

(** [v === z] for a number literal [z]. *)
Definition strict_eq_num (v : Value) (z : Z) : bool :=
  match v with
  | Number (Int x) => x =? z
  | _ => false
  end.

(** [v === s] for a string literal [s]. *)
Definition strict_eq_str (v : Value) (s : string) : bool :=
  match v with
  | Str x => String.eqb x s
  | _ => false
  end.

(** [z - v] for a number [z].  The difference of two doubles is the
    integer difference when both operands and the result are safe
    integers; outside that range the rounding of the host decides. *)
Definition sub (rt : Runtime) (z : Z) (v : Value) : Value :=
  match ToNumber rt v with
  | Int x =>
    if safe z && safe x && safe (z - x) then num (z - x)
    else Number (subtract rt z x)
  | NaN => Number NaN
  end.

Fixpoint assoc (k : string) (props : list (string * Value)) : Value :=
  match props with
  | [] => Undefined
  | (k', v) :: rest => if String.eqb k k' then v else assoc k rest
  end.

(** Property read [v.k] for the data keys the sources read.  [None] is
    the TypeError raised on [undefined] and [null]. *)
Definition get (v : Value) (k : string) : option Value :=
  match v with
  | Undefined | Null => None
  | Object props => Some (assoc k props)
  | _ => Some Undefined
  end.

(** Optional chaining [v?.k]. *)
Definition get_opt (v : Value) (k : string) : option Value :=
  if nullish v then Some Undefined else get v k.

(** ** Strings *)

Definition lower_ascii (c : ascii) : ascii :=
  let n := nat_of_ascii c in
  if (Nat.leb 65 n && Nat.leb n 90)%bool then ascii_of_nat (n + 32) else c.

(** [s.toLowerCase()] on text in the ASCII range: the letters A to Z are
    folded and every other byte is kept.  Outside that range the method
    of the host follows the Unicode case mappings, which this function
    does not; [LibraryRaw] takes the host's method as a parameter. *)
Fixpoint toLowerCase (s : string) : string :=
  match s with
  | EmptyString => EmptyString
  | String c rest => String (lower_ascii c) (toLowerCase rest)
  end.

(** [hay.includes(needle)] *)
Fixpoint includes (hay needle : string) : bool :=
  if String.prefix needle hay then true
  else match hay with
       | EmptyString => false
       | String _ rest => includes rest needle
       end.

(** ** Replies of [fetch] *)

(** What awaiting [fetch(...)] and then [response.json()] can give: the
    request itself fails, or a response arrives with a status code and a
    body that parses as JSON ([Some]) or does not ([None]). *)
Inductive FetchReply (B : Type) : Type :=
| NetworkError
| Response (status : Z) (body : option B).

Arguments NetworkError {B}.
Arguments Response {B} status body.

(** [response.ok] *)
Definition ok (status : Z) : bool := (200 <=? status) && (status <=? 299).

End Js.

(* ===================================================================== *)
(** * Handlers as computations: state passing with exceptions             *)
(* ===================================================================== *)

Module Eff.

Inductive Outcome (A : Type) : Type :=
| Returned (a : A)
| Thrown.

Arguments Returned {A} a.
Arguments Thrown {A}.

(** A computation over a world [W]: state written before a [throw] stays
    written. *)
Definition M (W A : Type) : Type := W -> Outcome A * W.

Definition ret {W A} (a : A) : M W A := fun w => (Returned a, w).

Definition bind {W A B} (m : M W A) (k : A -> M W B) : M W B :=
  fun w =>
    match m w with
    | (Returned a, w') => k a w'
    | (Thrown, w') => (Thrown, w')
    end.

Definition throw {W A} : M W A := fun w => (Thrown, w).

Definition modify {W} (f : W -> W) : M W unit := fun w => (Returned tt, f w).

Definition gets {W A} (f : W -> A) : M W A := fun w => (Returned (f w), w).

(** A partial read: [None] throws. *)
Definition lift {W A} (o : option A) : M W A :=
  match o with
  | Some a => ret a
  | None => throw
  end.

(** [try { body } catch (e) { handler }] *)
Definition try_catch {W A} (body handler : M W A) : M W A :=
  fun w =>
    match body w with
    | (Returned a, w') => (Returned a, w')
    | (Thrown, w') => handler w'
    end.

(** [try { body } finally { fin }], where [fin] does not throw or return. *)
Definition finally {W A} (body : M W A) (fin : W -> W) : M W A :=
  fun w => let (o, w') := body w in (o, fin w').

Definition when {W} (b : bool) (m : M W unit) : M W unit :=
  if b then m else ret tt.

Definition exec {W A} (m : M W A) (w : W) : W := snd (m w).
Definition result {W A} (m : M W A) (w : W) : Outcome A := fst (m w).

(** Awaiting a [fetch] and reading its JSON body. *)
Definition await_fetch {W B} (r : Js.FetchReply B) : M W (Z * option B) :=
  match r with
  | Js.NetworkError => throw
  | Js.Response status body => ret (status, body)
  end.

End Eff.

Declare Scope eff_scope.
Delimit Scope eff_scope with eff.
Notation "x <- m ;; k" := (Eff.bind m (fun x => k))
  (at level 100, m at next level, right associativity) : eff_scope.
Notation "m ;;; k" := (Eff.bind m (fun _ => k))
  (at level 100, right associativity) : eff_scope.

(* ===================================================================== *)
(** * hooks/useAuth.js                                                    *)
(* ===================================================================== *)

Module UseAuth.

Import Js.
Local Open Scope eff_scope.

(** [LIMITS] is imported from [utils/constants], which is not among the
    sources; the hook only reads [LIMITS.FREE_CHAT_LIMIT], so the constant
    is a parameter of the hook. *)
Record Limits : Type := { FREE_CHAT_LIMIT : Z }.

(** The entitlement snapshot held in the [chatLimits] cell. *)
Record ChatLimits : Type := {
  remaining : Value;
  used : Value;
  canChat : bool
}.

(** The [useState] cells of the hook and the browser storage it mirrors
    them to. *)
Record World : Type := {
  user : Value;
  token : Value;
  isAuthenticated : bool;
  isLoading : bool;
  chatLimits : ChatLimits;
  localStorage : gmap string string
}.

Definition setUser (v : Value) : Eff.M World unit :=
  Eff.modify (fun w =>
    {| user := v; token := token w; isAuthenticated := isAuthenticated w;
       isLoading := isLoading w; chatLimits := chatLimits w;
       localStorage := localStorage w |}).

Definition setToken (v : Value) : Eff.M World unit :=
  Eff.modify (fun w =>
    {| user := user w; token := v; isAuthenticated := isAuthenticated w;
       isLoading := isLoading w; chatLimits := chatLimits w;
       localStorage := localStorage w |}).

Definition setIsAuthenticated (b : bool) : Eff.M World unit :=
  Eff.modify (fun w =>
    {| user := user w; token := token w; isAuthenticated := b;
       isLoading := isLoading w; chatLimits := chatLimits w;
       localStorage := localStorage w |}).

Definition with_isLoading (b : bool) (w : World) : World :=
  {| user := user w; token := token w; isAuthenticated := isAuthenticated w;
     isLoading := b; chatLimits := chatLimits w;
     localStorage := localStorage w |}.

Definition setIsLoading (b : bool) : Eff.M World unit :=
  Eff.modify (with_isLoading b).

Definition setChatLimits (c : ChatLimits) : Eff.M World unit :=
  Eff.modify (fun w =>
    {| user := user w; token := token w; isAuthenticated := isAuthenticated w;
       isLoading := isLoading w; chatLimits := c;
       localStorage := localStorage w |}).

(** [localStorage.setItem(k, s)] *)
Definition setItem (k s : string) : Eff.M World unit :=
  Eff.modify (fun w =>
    {| user := user w; token := token w; isAuthenticated := isAuthenticated w;
       isLoading := isLoading w; chatLimits := chatLimits w;
       localStorage := <[k := s]> (localStorage w) |}).

(** [localStorage.removeItem(k)] *)
Definition removeItem (k : string) : Eff.M World unit :=
  Eff.modify (fun w =>
    {| user := user w; token := token w; isAuthenticated := isAuthenticated w;
       isLoading := isLoading w; chatLimits := chatLimits w;
       localStorage := delete k (localStorage w) |}).

(** [localStorage.getItem(k)] *)
Definition getItem (ls : gmap string string) (k : string) : Value :=
  match ls !! k with
  | Some s => Str s
  | None => Null
  end.

Section Hook.

Context (rt : Runtime) (LIMITS : Limits).

(** [r > 0 || r === -1], the expression every writer of [chatLimits] uses. *)
Definition allows (r : Value) : bool := gt rt r 0 || strict_eq_num r (-1).

(** The unauthenticated default written by [useState] and by [logout]. *)
Definition defaultLimits : ChatLimits :=
  {| remaining := num (FREE_CHAT_LIMIT LIMITS); used := num 0; canChat := true |}.

(** The state of the first render, over the storage [ls] found on load. *)
Definition init (ls : gmap string string) : World :=
  {| user := Null;
     token := getItem ls "auth_token";
     isAuthenticated := false;
     isLoading := false;
     chatLimits := defaultLimits;
     localStorage := ls |}.

Definition logout : Eff.M World unit :=
  setToken Null ;;;
  setUser Null ;;;
  setIsAuthenticated false ;;;
  setChatLimits defaultLimits ;;;
  removeItem "auth_token" ;;;
  removeItem "user_info".

(** [handleGoogleLogin(response)], given the reply of the login endpoint. *)
Definition handleGoogleLogin (reply : FetchReply Value) : Eff.M World unit :=
  setIsLoading true ;;;
  Eff.finally
    (Eff.try_catch
       (loginResponse <- Eff.await_fetch reply ;;
        if negb (ok (fst loginResponse)) then Eff.throw else
        data <- Eff.lift (snd loginResponse) ;;
        data_user <- Eff.lift (get data "user") ;;
        user_chat_count <- Eff.lift (get_opt data_user "chat_count") ;;
        data_chat_count <- Eff.lift (get data "chat_count") ;;
        let chatCount := or (or user_chat_count data_chat_count) (num 0) in
        access_token <- Eff.lift (get data "access_token") ;;
        setToken access_token ;;;
        setUser data_user ;;;
        setIsAuthenticated true ;;;
        remaining_chats <- Eff.lift (get data "remaining_chats") ;;
        setChatLimits {| remaining := remaining_chats;
                         used := chatCount;
                         canChat := allows remaining_chats |} ;;;
        setItem "auth_token" (ToString rt access_token) ;;;
        setItem "user_info" (ToString rt (JSON_stringify rt data_user)) ;;;
        (* console.log('Login successful:', data.user.email) *)
        _ <- Eff.lift (get data_user "email") ;;
        Eff.ret tt)
       logout)
    (with_isLoading false).

(** [fetchUserStatus()], given the reply of the session-status endpoint. *)
Definition fetchUserStatus (reply : FetchReply Value) : Eff.M World unit :=
  tok <- Eff.gets token ;;
  if negb (truthy tok) then Eff.ret tt else
  Eff.try_catch
    (response <- Eff.await_fetch reply ;;
     if ok (fst response) then
       data <- Eff.lift (snd response) ;;
       data_user <- Eff.lift (get data "user") ;;
       Eff.when (truthy data_user)
         (setUser data_user ;;;
          setItem "user_info" (ToString rt (JSON_stringify rt data_user))) ;;;
       remaining_chats <- Eff.lift (get data "remaining_chats") ;;
       data_remaining <- Eff.lift (get data "remaining") ;;
       chat_count <- Eff.lift (get data "chat_count") ;;
       data_used <- Eff.lift (get data "used") ;;
       let remaining := coalesce (coalesce remaining_chats data_remaining) (num (-1)) in
       let used := coalesce (coalesce chat_count data_used) (num 0) in
       setChatLimits {| remaining := remaining;
                        used := used;
                        canChat := allows remaining |}
     else if fst response =? 401 then logout
     else Eff.ret tt)
    (* console.error('Error fetching user status:', error) *)
    (Eff.ret tt).

(** [checkChatLimits()], given the reply of the chat-limit endpoint. *)
Definition checkChatLimits (reply : FetchReply Value) : Eff.M World bool :=
  tok <- Eff.gets token ;;
  if negb (truthy tok) then Eff.ret false else
  Eff.try_catch
    (response <- Eff.await_fetch reply ;;
     if ok (fst response) then
       data <- Eff.lift (snd response) ;;
       remaining_chats <- Eff.lift (get data "remaining_chats") ;;
       setChatLimits {| remaining := remaining_chats;
                        used := sub rt (FREE_CHAT_LIMIT LIMITS) remaining_chats;
                        canChat := allows remaining_chats |} ;;;
       Eff.ret (allows remaining_chats)
     else Eff.ret false)
    (* console.error('Error checking chat limits:', error) *)
    (Eff.ret false).

Definition updateChatLimits (newRemaining newUsed : Value) : Eff.M World unit :=
  setChatLimits {| remaining := newRemaining;
                   used := newUsed;
                   canChat := allows newRemaining |}.

End Hook.

End UseAuth.

(* ===================================================================== *)
(** * components/library/Library.jsx                                      *)
(* ===================================================================== *)

Module Library.

Import Js.
Local Open Scope eff_scope.

(** A catalog entry whose fields have the types of the data model: the
    name, description and category are strings.  [gdrive_folder_id] is the
    one field the component tests for presence.  The listing is JSON and
    nothing in the component checks it; [LibraryRaw] has the filter on
    entries of any shape, where a name or description that is missing or
    not a string makes it throw, and [LibraryRawFacts.filtered_refines]
    relates the two. *)
Record Domain : Type := {
  id : Value;
  name : string;
  description : string;
  category : string;
  file_count : string;
  total_size_readable : string;
  gdrive_folder_id : option string
}.

(** The body of the catalog listing.  [body_categories] is [None] when the
    reply carries no iterable [categories]. *)
Record Catalog : Type := {
  body_domains : list Domain;
  body_categories : option (list string)
}.

(** Calls that leave the component. *)
Inductive Event : Type :=
| OpenUpgradeModal                                    (* onOpenUpgradeModal()   *)
| Alert (message : string)                            (* alert(message)         *)
| Confirm (message : string)                          (* window.confirm(message)*)
| WindowOpen (url target features : string)           (* window.open(...)       *)
| TrackDownload (domain_id : Value) (download_type : string)
                                                      (* POST track-download    *)
| ConsoleError (label : string).                      (* console.error(label, e)*)

(** Props of the component that the handlers read. *)
Record Props : Type := {
  isOpen : bool;
  chatLimits : option UseAuth.ChatLimits
}.

(** The [useState] cells of the component and the calls made so far. *)
Record World : Type := {
  domains : list Domain;
  filteredDomains : list Domain;
  searchTerm : string;
  selectedCategory : string;
  categories : list string;
  loading : bool;
  selectedDomain : option Domain;
  downloadModalOpen : bool;
  events : list Event
}.

Definition setDomains (l : list Domain) : Eff.M World unit :=
  Eff.modify (fun w =>
    {| domains := l; filteredDomains := filteredDomains w;
       searchTerm := searchTerm w; selectedCategory := selectedCategory w;
       categories := categories w; loading := loading w;
       selectedDomain := selectedDomain w;
       downloadModalOpen := downloadModalOpen w; events := events w |}).

Definition setFilteredDomains (l : list Domain) : Eff.M World unit :=
  Eff.modify (fun w =>
    {| domains := domains w; filteredDomains := l;
       searchTerm := searchTerm w; selectedCategory := selectedCategory w;
       categories := categories w; loading := loading w;
       selectedDomain := selectedDomain w;
       downloadModalOpen := downloadModalOpen w; events := events w |}).

Definition setCategories (l : list string) : Eff.M World unit :=
  Eff.modify (fun w =>
    {| domains := domains w; filteredDomains := filteredDomains w;
       searchTerm := searchTerm w; selectedCategory := selectedCategory w;
       categories := l; loading := loading w;
       selectedDomain := selectedDomain w;
       downloadModalOpen := downloadModalOpen w; events := events w |}).

Definition with_loading (b : bool) (w : World) : World :=
  {| domains := domains w; filteredDomains := filteredDomains w;
     searchTerm := searchTerm w; selectedCategory := selectedCategory w;
     categories := categories w; loading := b;
     selectedDomain := selectedDomain w;
     downloadModalOpen := downloadModalOpen w; events := events w |}.

Definition setLoading (b : bool) : Eff.M World unit :=
  Eff.modify (with_loading b).

Definition setSelectedDomain (d : option Domain) : Eff.M World unit :=
  Eff.modify (fun w =>
    {| domains := domains w; filteredDomains := filteredDomains w;
       searchTerm := searchTerm w; selectedCategory := selectedCategory w;
       categories := categories w; loading := loading w;
       selectedDomain := d;
       downloadModalOpen := downloadModalOpen w; events := events w |}).

Definition setDownloadModalOpen (b : bool) : Eff.M World unit :=
  Eff.modify (fun w =>
    {| domains := domains w; filteredDomains := filteredDomains w;
       searchTerm := searchTerm w; selectedCategory := selectedCategory w;
       categories := categories w; loading := loading w;
       selectedDomain := selectedDomain w;
       downloadModalOpen := b; events := events w |}).

(** Record a call; [events] lists them in the order they were made. *)
Definition emit (e : Event) : Eff.M World unit :=
  Eff.modify (fun w =>
    {| domains := domains w; filteredDomains := filteredDomains w;
       searchTerm := searchTerm w; selectedCategory := selectedCategory w;
       categories := categories w; loading := loading w;
       selectedDomain := selectedDomain w;
       downloadModalOpen := downloadModalOpen w;
       events := events w ++ [e] |}).

(** [chatLimits?.remaining] *)
Definition chatLimits_remaining (p : Props) : Value :=
  match chatLimits p with
  | Some c => UseAuth.remaining c
  | None => Undefined
  end.

(** [const isPremium = chatLimits?.remaining === -1] *)
Definition isPremium (p : Props) : bool :=
  strict_eq_num (chatLimits_remaining p) (-1).

(** [fetchDomains()], given the reply of the catalog endpoint. *)
Definition fetchDomains (reply : FetchReply Catalog) : Eff.M World unit :=
  Eff.finally
    (Eff.try_catch
       (setLoading true ;;;
        response <- Eff.await_fetch reply ;;
        if negb (ok (fst response)) then Eff.throw else
        data <- Eff.lift (snd response) ;;
        setDomains (body_domains data) ;;;
        (* ['All', ...data.categories] *)
        data_categories <- Eff.lift (body_categories data) ;;
        setCategories ("All" :: data_categories) ;;;
        setFilteredDomains (body_domains data))
       (emit (ConsoleError "Error fetching domains:")))
    (with_loading false).

(** The callback of the search filter:
    [d.name.toLowerCase().includes(searchTerm.toLowerCase()) ||
     d.description.toLowerCase().includes(searchTerm.toLowerCase())] *)
Definition matchesSearch (searchTerm : string) (d : Domain) : bool :=
  includes (toLowerCase (name d)) (toLowerCase searchTerm)
  || includes (toLowerCase (description d)) (toLowerCase searchTerm).

(** The list [filterDomains] computes from the three cells it reads. *)
Definition filtered (domains : list Domain) (searchTerm selectedCategory : string)
  : list Domain :=
  let filtered := domains in
  let filtered :=
    if negb (String.eqb selectedCategory "All")
    then List.filter (fun d => String.eqb (category d) selectedCategory) filtered
    else filtered in
  let filtered :=
    if negb (String.eqb searchTerm "")
    then List.filter (matchesSearch searchTerm) filtered
    else filtered in
  filtered.

Definition filterDomains : Eff.M World unit :=
  domains <- Eff.gets domains ;;
  searchTerm <- Eff.gets searchTerm ;;
  selectedCategory <- Eff.gets selectedCategory ;;
  setFilteredDomains (filtered domains searchTerm selectedCategory).

Definition handleDomainClick (p : Props) (domain : Domain) : Eff.M World unit :=
  if negb (isPremium p) then emit OpenUpgradeModal
  else
    setSelectedDomain (Some domain) ;;;
    setDownloadModalOpen true.

(** What [window.open] answers when called.  The answer is about the
    handle, not about the tab: called with the feature [noopener], as
    here, a browser that follows the HTML Standard answers [null] also
    when it opens the tab, which is the [Blocked] answer. *)
Inductive OpenResult : Type :=
| Opened          (* a window handle that is open                 *)
| Blocked         (* null, or a handle that is closed or unusable *)
| OpenThrows.     (* the call raises                              *)

(** The answers the browser gives during one [handleDownload]. *)
Record Browser : Type := {
  confirm_answer : bool;
  open_result : OpenResult
}.

Definition newline : string := String (ascii_of_nat 10) EmptyString.

Definition folderMissingMessage (d : Domain) : string :=
  "Google Drive folder not found for " +:+ name d.

Definition driveUrl (folderId : string) : string :=
  "https://drive.google.com/drive/folders/" +:+ folderId +:+ "?usp=sharing".

Definition confirmMessage (type : string) (d : Domain) : string :=
  if String.eqb type "zip"
  then "This will open the " +:+ name d +:+ " folder in Google Drive."
       +:+ newline +:+ newline
       +:+ "You can download all files as a ZIP from there."
       +:+ newline +:+ newline +:+ "Continue?"
  else "This will open the " +:+ name d +:+ " folder in Google Drive."
       +:+ newline +:+ newline
       +:+ "You can select and download files from there."
       +:+ newline +:+ newline +:+ "Continue?".

Definition popupBlockedMessage : string :=
  "❌ Popup blocked!" +:+ newline +:+ newline
  +:+ "Please allow popups for this site and try again.".

(** [!folderId] *)
Definition folderId_present (f : option string) : option string :=
  match f with
  | Some s => if String.eqb s "" then None else Some s
  | None => None
  end.

(** [trackDownload(domainId, type)]: the request is issued; its outcome is
    awaited by nobody and a failure is only logged. *)
Definition trackDownload (domainId : Value) (type : string) : Eff.M World unit :=
  emit (TrackDownload domainId type).

Definition handleDownload (p : Props) (b : Browser) (type : string)
  : Eff.M World unit :=
  selected <- Eff.gets selectedDomain ;;
  match selected with
  | None => Eff.ret tt
  | Some selectedDomain =>
    if negb (isPremium p) then
      setDownloadModalOpen false ;;;
      emit OpenUpgradeModal
    else
      Eff.try_catch
        (match folderId_present (gdrive_folder_id selectedDomain) with
         | None => emit (Alert (folderMissingMessage selectedDomain))
         | Some folderId =>
           emit (Confirm (confirmMessage type selectedDomain)) ;;;
           if negb (confirm_answer b) then Eff.ret tt else
           emit (WindowOpen (driveUrl folderId) "_blank" "noopener,noreferrer") ;;;
           match open_result b with
           | OpenThrows => Eff.throw
           | Blocked => emit (Alert popupBlockedMessage)
           | Opened =>
             setDownloadModalOpen false ;;;
             trackDownload (id selectedDomain) type
           end
         end)
        (emit (ConsoleError "Download error:") ;;;
         emit (Alert "Failed to open Google Drive. Please try again."))
  end.

(** [{downloadModalOpen && selectedDomain && isPremium && <DownloadModal/>}],
    below the [if (!isOpen) return null] of the component. *)
Definition rendersDownloadModal (p : Props) (w : World) : bool :=
  isOpen p
  && (downloadModalOpen w
      && match selectedDomain w with Some _ => true | None => false end
      && isPremium p).

End Library.

(* ===================================================================== *)
(** * components/auth/UpgradePrompt.jsx                                   *)
(* ===================================================================== *)

Module UpgradePrompt.

Import Js.
Local Open Scope eff_scope.

(** What the checkout widget passes to the success handler. *)
Record PaymentResponse : Type := {
  razorpay_order_id : string;
  razorpay_payment_id : string;
  razorpay_signature : string
}.

(** How a call of the [onUpgradeSuccess] prop ends when awaited. *)
Inductive Callback : Type :=
| Resolves
| Rejects.

Record Props : Type := {
  user : Value;
  onUpgradeSuccess : option Callback     (* [None]: the prop is not passed *)
}.

(** Calls that leave the component, in the order they are made. *)
Inductive Event : Type :=
| VerifyPayment (order_id payment_id signature : string) (user_id : Value)
                (amount : Z) (currency : string)     (* POST verify-payment *)
| Alert (message : string)                           (* alert(message)      *)
| UpgradeSuccess                                     (* onUpgradeSuccess()  *)
| Close                                              (* onClose()           *)
| ConsoleError (label : string).                     (* console.error(...)  *)

Definition World : Type := list Event.

Definition emit (e : Event) : Eff.M World unit :=
  Eff.modify (fun w => w ++ [e]).

Definition successMessage : string :=
  "🎉 Payment Successful! You now have unlimited chats!".

Definition supportMessage (response : PaymentResponse) : string :=
  "Payment received but verification failed. Contact support with Payment ID: "
  +:+ razorpay_payment_id response.

(** [await onUpgradeSuccess()] *)
Definition await_callback (c : Callback) : Eff.M World unit :=
  emit UpgradeSuccess ;;;
  match c with
  | Resolves => Eff.ret tt
  | Rejects => Eff.throw
  end.

(** The [handler] option given to the checkout widget, run on the widget's
    [response] and the reply of the verification endpoint. *)
Definition handler (p : Props) (response : PaymentResponse)
  (reply : FetchReply Value) : Eff.M World unit :=
  (* console.log('Payment successful:', response) *)
  Eff.try_catch
    (user_id <- Eff.lift (get (user p) "google_id") ;;
     emit (VerifyPayment (razorpay_order_id response)
                         (razorpay_payment_id response)
                         (razorpay_signature response)
                         user_id 49900 "INR") ;;;
     verifyResponse <- Eff.await_fetch reply ;;
     verifyData <- Eff.lift (snd verifyResponse) ;;
     status <- Eff.lift (get verifyData "status") ;;
     if strict_eq_str status "success" then
       emit (Alert successMessage) ;;;
       match onUpgradeSuccess p with
       | Some callback => await_callback callback
       | None => Eff.ret tt
       end ;;;
       emit Close
     else
       (* throw new Error('Payment verification failed') *)
       Eff.throw)
    (emit (ConsoleError "Verification error:") ;;;
     emit (Alert (supportMessage response))).

End UpgradePrompt.

(* ===================================================================== *)
(** * What the specification says, as predicates                         *)
(* ===================================================================== *)

Module UseAuthSpec.

Import Js UseAuth.

(** The invariant of the data model: [canChat] holds exactly when
    [remaining > 0] or [remaining] is the sentinel -1. *)
Definition derived (rt : Runtime) (c : ChatLimits) : Prop :=
  canChat c = true <-> (gt rt (remaining c) 0 = true \/ remaining c = num (-1)).

(** [data.k] on a body that is known not to be [null]. *)
Definition field (data : Value) (k : string) : Value :=
  match get data k with
  | Some v => v
  | None => Undefined
  end.

(** The snapshot a session-status body reports, with the fallbacks
    [fetchUserStatus] applies to absent fields. *)
Definition reportedLimits (rt : Runtime) (data : Value) : ChatLimits :=
  let remaining :=
    coalesce (coalesce (field data "remaining_chats") (field data "remaining"))
             (num (-1)) in
  {| remaining := remaining;
     used := coalesce (coalesce (field data "chat_count") (field data "used"))
                      (num 0);
     canChat := allows rt remaining |}.

(** A session-status reply that carries a snapshot: an ok response whose
    body parses to something other than [null]. *)
Definition reports (reply : FetchReply Value) : option Value :=
  match reply with
  | Response status (Some data) =>
    if ok status && negb (nullish data) then Some data else None
  | _ => None
  end.

(** [checkChatLimits] fails: the request does not complete or the response
    is not ok. *)
Definition check_failed (reply : FetchReply Value) : bool :=
  match reply with
  | NetworkError => true
  | Response status _ => negb (ok status)
  end.

(** ** Sample inputs *)

(** A host for the sample runs, which coerce no strings. *)
Definition plainRuntime : Runtime :=
  {| StringToNumber := fun _ => NaN;
     ToString := fun v => match v with Str s => s | _ => "" end;
     JSON_stringify := fun v => v;
     subtract := fun _ _ => NaN |}.

Definition tenFree : Limits := {| FREE_CHAT_LIMIT := 10 |}.

Definition ann : Value :=
  Object [("google_id", Str "g-1"); ("email", Str "ann@example.org")].

(** A signed-in free user with 3 of 10 chats left. *)
Definition signedIn : World :=
  {| user := ann;
     token := Str "tok";
     isAuthenticated := true;
     isLoading := false;
     chatLimits := {| remaining := num 3; used := num 7; canChat := true |};
     localStorage := <["auth_token" := "tok"]> (<["user_info" := "ann"]> ∅) |}.

(** A chat-limit body that also carries the count of chats used. *)
Definition limitsBody : Value :=
  Object [("remaining_chats", num 8); ("chat_count", num 5); ("used", num 5)].

(** A session-status body. *)
Definition statusBody : Value :=
  Object [("user", ann); ("remaining_chats", num 5); ("chat_count", num 1)].

End UseAuthSpec.

Module LibrarySpec.

Import Js Library.

(** The calls a handler makes when run from [w]: what it appends to
    [events]. *)
Definition calls {A} (m : Eff.M World A) (w : World) : list Event :=
  skipn (length (events w)) (events (Eff.exec m w)).

(** [needle] occurs in [hay] when letter case is ignored. *)
Definition contains_ci (hay needle : string) : Prop :=
  exists pre post : string,
    toLowerCase hay = pre +:+ toLowerCase needle +:+ post.

(** The entries the specification's [filter(searchTerm, category)] keeps. *)
Definition kept (searchTerm selectedCategory : string) (d : Domain) : Prop :=
  (contains_ci (name d) searchTerm \/ contains_ci (description d) searchTerm)
  /\ (selectedCategory = "All" \/ category d = selectedCategory).

(** The same test as a boolean, for running the filter in one pass. *)
Definition keeps (searchTerm selectedCategory : string) (d : Domain) : bool :=
  (String.eqb selectedCategory "All" || String.eqb (category d) selectedCategory)
  && matchesSearch searchTerm d.

(** The two entries of the specification's scenario; the fields the
    scenario leaves open are arguments. *)
Definition healthCensus (i : Value) (descr fc sz : string) (g : option string)
  : Domain :=
  {| id := i; name := "Health Census"; description := descr;
     category := "Social"; file_count := fc; total_size_readable := sz;
     gdrive_folder_id := g |}.

Definition roadNetwork (i : Value) (descr fc sz : string) (g : option string)
  : Domain :=
  {| id := i; name := "Road Network"; description := descr;
     category := "Infrastructure"; file_count := fc; total_size_readable := sz;
     gdrive_folder_id := g |}.

(** [fetchDomains] fails: the request does not complete, the response is
    not ok, or its body is not JSON. *)
Definition fetch_failed (reply : FetchReply Catalog) : bool :=
  match reply with
  | NetworkError => true
  | Response status body =>
    negb (ok status) || match body with Some _ => false | None => true end
  end.

(** [handleDownload] got a usable window handle: premium entitlement, a
    folder link, the user's confirmation, and an answer of [window.open]
    that is a window which is not closed. *)
Definition handle_returned (p : Props) (b : Browser) (d : Domain) : bool :=
  isPremium p
  && match folderId_present (gdrive_folder_id d) with
     | Some _ => true
     | None => false
     end
  && confirm_answer b
  && match open_result b with Opened => true | _ => false end.

(** ** Sample inputs *)

Definition premiumLimits : UseAuth.ChatLimits :=
  {| UseAuth.remaining := num (-1); UseAuth.used := num 12;
     UseAuth.canChat := true |}.

Definition exhaustedLimits : UseAuth.ChatLimits :=
  {| UseAuth.remaining := num 0; UseAuth.used := num 10;
     UseAuth.canChat := false |}.

Definition premiumProps : Props :=
  {| isOpen := true; chatLimits := Some premiumLimits |}.

Definition freeProps : Props :=
  {| isOpen := true; chatLimits := Some exhaustedLimits |}.

Definition roads : Domain :=
  roadNetwork (num 2) "State highways" "14 files" "3.1 MB" (Some "1AbCdEf").

Definition roadsNoFolder : Domain :=
  roadNetwork (num 2) "State highways" "14 files" "3.1 MB" None.

Definition health : Domain :=
  healthCensus (num 1) "District health survey" "8 files" "1.2 MB" (Some "9ZyXw").

(** The component after the catalog loaded and [selected] was clicked by a
    premium user. *)
Definition modalOpenOn (selected : Domain) : World :=
  {| domains := [health; selected]; filteredDomains := [health; selected];
     searchTerm := ""; selectedCategory := "All";
     categories := ["All"; "Social"; "Infrastructure"]; loading := false;
     selectedDomain := Some selected; downloadModalOpen := true;
     events := [] |}.

Definition browsing : World :=
  {| domains := [health; roads]; filteredDomains := [health; roads];
     searchTerm := ""; selectedCategory := "All";
     categories := ["All"; "Social"; "Infrastructure"]; loading := false;
     selectedDomain := None; downloadModalOpen := false;
     events := [] |}.

Definition userConfirms_windowOpens : Browser :=
  {| confirm_answer := true; open_result := Opened |}.

Definition userConfirms_popupBlocked : Browser :=
  {| confirm_answer := true; open_result := Blocked |}.

Definition userCancels : Browser :=
  {| confirm_answer := false; open_result := Opened |}.

End LibrarySpec.

Module UpgradePromptSpec.

Import Js UpgradePrompt.

(** The verification endpoint reports success: the reply has a JSON body
    whose [status] field is the string 'success', which is all the handler
    tests (the HTTP status code is not looked at). *)
Definition verified (reply : FetchReply Value) : bool :=
  match reply with
  | Response _ (Some verifyData) =>
    match get verifyData "status" with
    | Some status => strict_eq_str status "success"
    | None => false
    end
  | _ => false
  end.

(** The calls a run of the handler makes from [w]. *)
Definition calls (m : Eff.M World unit) (w : World) : list Event :=
  skipn (length w) (Eff.exec m w).

(** The request the handler sends to the verification endpoint. *)
Definition verifyRequest (p : Props) (response : PaymentResponse) : Event :=
  VerifyPayment (razorpay_order_id response) (razorpay_payment_id response)
                (razorpay_signature response)
                (UseAuthSpec.field (user p) "google_id") 49900 "INR".

(** ** Sample inputs *)

Definition payment : PaymentResponse :=
  {| razorpay_order_id := "order_9A33XWu170gUtm";
     razorpay_payment_id := "pay_29QQoUBi66xm2f";
     razorpay_signature := "9ef4dffbfd84f1318f6739a3ce19f9d85851857ae648f114332d8401e0949a3d" |}.

Definition annRefreshing : Props :=
  {| user := UseAuthSpec.ann; onUpgradeSuccess := Some Resolves |}.

Definition annRefreshFailing : Props :=
  {| user := UseAuthSpec.ann; onUpgradeSuccess := Some Rejects |}.

Definition verifyOk : FetchReply Value :=
  Response 200 (Some (Object [("status", Str "success")])).

Definition verifyRejected : FetchReply Value :=
  Response 400 (Some (Object [("status", Str "failed")])).

End UpgradePromptSpec.

(* ===================================================================== *)
(** * hooks/useAuth.js: request headers and the start-up effect           *)
(* ===================================================================== *)

Module UseAuthStartup.

Import Js UseAuth.
Local Open Scope eff_scope.

(** [getAuthHeaders()]: the object it returns, as a map from header name
    to header value. *)
Definition getAuthHeaders (rt : Runtime) (w : World) : gmap string string :=
  if negb (truthy (token w)) then ∅
  else <["Authorization" := "Bearer " +:+ ToString rt (token w)]>
         (<["Content-Type" := "application/json"]> ∅).

(** [{ ...getAuthHeaders(), 'Content-Type': 'application/json' }], the
    headers the library browser and the upgrade prompt send with a POST. *)
Definition postHeaders (rt : Runtime) (w : World) : gmap string string :=
  <["Content-Type" := "application/json"]> (getAuthHeaders rt w).

Section Mount.

(** [JSON.parse] is a built-in of the host; [None] is its SyntaxError. *)
Context (rt : Runtime) (LIMITS : Limits) (JSON_parse : string -> option Value).

(** [JSON.parse(storedUser)] on what [localStorage.getItem] returned. *)
Definition parseStored (stored : Value) : option Value :=
  match stored with
  | Str s => JSON_parse s
  | _ => None
  end.

(** The session part of the effect that runs once after the first render
    ("Initialize authentication on mount"), given the reply the status
    endpoint will give.  The promise of [fetchUserStatus()] is not awaited,
    so the [try] covers the three setters and [JSON.parse] only.  The rest
    of the effect injects the identity provider's script into the page and
    touches none of the cells below. *)
Definition mountEffect (reply : FetchReply Value) : Eff.M World unit :=
  ls <- Eff.gets localStorage ;;
  let storedToken := getItem ls "auth_token" in
  let storedUser := getItem ls "user_info" in
  if truthy storedToken && truthy storedUser then
    restored <-
      Eff.try_catch
        (setToken storedToken ;;;
         parsed <- Eff.lift (parseStored storedUser) ;;
         setUser parsed ;;;
         setIsAuthenticated true ;;;
         Eff.ret true)
        (* console.error('Error loading stored auth data:', error) *)
        (logout LIMITS ;;; Eff.ret false) ;;
    if restored then fetchUserStatus rt LIMITS reply else Eff.ret tt
  else Eff.ret tt.

End Mount.

End UseAuthStartup.

(* ===================================================================== *)
(** * components/auth/UpgradePrompt.jsx: creating the order               *)
(* ===================================================================== *)

Module UpgradeOrder.

Import Js.
Local Open Scope eff_scope.

(** The [message] of the errors the host raises inside [handleUpgrade]. *)
Record HostErrors : Type := {
  fetch_failed_message : string;     (* fetch() rejects                  *)
  json_failed_message : string;      (* response.json() rejects          *)
  null_property_message : string;    (* a property of null is read       *)
  not_constructor_message : string   (* new window.Razorpay: not loaded  *)
}.

(** Whether the checkout script has defined [window.Razorpay]. *)
Inductive Widget : Type :=
| WidgetMissing
| WidgetLoaded.

(** The options object given to [new window.Razorpay], without its
    [handler], which is [UpgradePrompt.handler]. *)
Record Options : Type := {
  key : string;
  amount : Value;
  currency : Value;
  name : string;
  description : string;
  order_id : Value;
  prefill_name : Value;
  prefill_email : Value;
  theme_color : string
}.

(** Calls that leave [handleUpgrade], in the order they are made. *)
Inductive Event : Type :=
| CreateOrder (amount : Z) (currency : string)     (* POST create-order    *)
| OpenCheckout (options : Options)                 (* new Razorpay; open() *)
| Alert (message : string)                         (* alert(message)       *)
| ConsoleError (label : string).                   (* console.error(...)   *)

Definition World : Type := list Event.

Definition emit (e : Event) : Eff.M World unit :=
  Eff.modify (fun w => w ++ [e]).

(** [v.k] where [v] may be anything: [undefined] for [null]. *)
Definition read (v : Value) (k : string) : Value :=
  match get_opt v k with
  | Some x => x
  | None => Undefined
  end.

(** The [catch] block of [handleUpgrade] on an error with this message. *)
Definition initiationFailed (message : string) : Eff.M World unit :=
  emit (ConsoleError "Error:") ;;;
  emit (Alert ("Failed to initiate payment: " +:+ message)).

Definition checkoutOptions (user orderData : Value) : Options :=
  {| key := "rzp_test_RYYc3rSYNvwjRx";
     amount := read orderData "amount";
     currency := read orderData "currency";
     name := "DocReaderAI Premium";
     description := "Upgrade to Unlimited Chats";
     order_id := read orderData "order_id";
     prefill_name := or (read user "name") (Str "");
     prefill_email := or (read user "email") (Str "");
     theme_color := "#1E88E5" |}.

(** [!user || !user.google_id] *)
Definition notSignedIn (user : Value) : bool :=
  negb (truthy user) || negb (truthy (read user "google_id")).

(** [handleUpgrade()], given the reply of the order endpoint.  Every
    [throw] inside the [try] is written as the [catch] block run on the
    error thrown there. *)
Definition handleUpgrade (host : HostErrors) (widget : Widget)
  (user : Value) (reply : FetchReply Value) : Eff.M World unit :=
  if notSignedIn user then emit (Alert "Please login first to upgrade")
  else
    emit (CreateOrder 49900 "INR") ;;;
    match reply with
    | NetworkError => initiationFailed (fetch_failed_message host)
    | Response status body =>
      if negb (ok status) then initiationFailed "Failed to create order"
      else
        match body with
        | None => initiationFailed (json_failed_message host)
        | Some orderData =>
          if nullish orderData
          then initiationFailed (null_property_message host)
          else
            match widget with
            | WidgetMissing => initiationFailed (not_constructor_message host)
            | WidgetLoaded => emit (OpenCheckout (checkoutOptions user orderData))
            end
        end
    end.

(** The calls a run makes from [w]. *)
Definition calls (m : Eff.M World unit) (w : World) : list Event :=
  skipn (length w) (Eff.exec m w).

(** The order endpoint answered with an order: an ok response whose body
    parses to something other than [null]. *)
Definition order_of (reply : FetchReply Value) : option Value :=
  match reply with
  | Response status (Some orderData) =>
    if ok status && negb (nullish orderData) then Some orderData else None
  | _ => None
  end.

End UpgradeOrder.

(* ===================================================================== *)
(** * components/library/Library.jsx: the filter on the catalog as sent   *)
(* ===================================================================== *)

(** [Library] types a catalog entry by the data model, with a name, a
    description and a category that are strings, and lower-cases in the
    ASCII range.  This module embeds [filterDomains] again without either
    assumption: an entry is whatever JSON value the backend sent, reading
    a property or calling [toLowerCase] on a value that has none throws,
    and the host's [toLowerCase] is a parameter. *)
Module LibraryRaw.

Import Js.
Local Open Scope eff_scope.

(** The cells [filterDomains] reads and writes. *)
Record World : Type := {
  domains : list Value;
  filteredDomains : list Value;
  searchTerm : string;
  selectedCategory : string
}.

Definition setFilteredDomains (l : list Value) : Eff.M World unit :=
  Eff.modify (fun w =>
    {| domains := domains w; filteredDomains := l;
       searchTerm := searchTerm w; selectedCategory := selectedCategory w |}).

(** [array.filter(callback)] for a callback that may throw: the entries
    are tested in order and an exception ends the call. *)
Fixpoint filterArray (callback : Value -> option bool) (array : list Value)
  : option (list Value) :=
  match array with
  | [] => Some []
  | d :: rest =>
    match callback d with
    | None => None
    | Some test =>
      match filterArray callback rest with
      | None => None
      | Some kept => Some (if test then d :: kept else kept)
      end
    end
  end.

Section Host.

(** [String.prototype.toLowerCase], a built-in of the host. *)
Context (toLowerCase : string -> string).

(** [v.toLowerCase()]: a TypeError unless [v] is a string. *)
Definition lowered (v : Value) : option string :=
  match v with
  | Str s => Some (toLowerCase s)
  | _ => None
  end.

(** [d => d.category === selectedCategory] *)
Definition categoryIs (selectedCategory : string) (d : Value) : option bool :=
  match get d "category" with
  | Some c => Some (strict_eq_str c selectedCategory)
  | None => None
  end.

(** [d => d.name.toLowerCase().includes(searchTerm.toLowerCase()) ||
          d.description.toLowerCase().includes(searchTerm.toLowerCase())];
    the description is looked at only when the name does not match. *)
Definition matchesSearch (searchTerm : string) (d : Value) : option bool :=
  match get d "name" with
  | None => None
  | Some d_name =>
    match lowered d_name with
    | None => None
    | Some name =>
      if includes name (toLowerCase searchTerm) then Some true
      else
        match get d "description" with
        | None => None
        | Some d_description =>
          match lowered d_description with
          | None => None
          | Some description =>
            Some (includes description (toLowerCase searchTerm))
          end
        end
    end
  end.

(** The list [filterDomains] computes, or [None] when it throws. *)
Definition filtered (domains : list Value) (searchTerm selectedCategory : string)
  : option (list Value) :=
  match (if negb (String.eqb selectedCategory "All")
         then filterArray (categoryIs selectedCategory) domains
         else Some domains) with
  | None => None
  | Some byCategory =>
    if negb (String.eqb searchTerm "")
    then filterArray (matchesSearch searchTerm) byCategory
    else Some byCategory
  end.

Definition filterDomains : Eff.M World unit :=
  domains <- Eff.gets domains ;;
  searchTerm <- Eff.gets searchTerm ;;
  selectedCategory <- Eff.gets selectedCategory ;;
  filtered <- Eff.lift (filtered domains searchTerm selectedCategory) ;;
  setFilteredDomains filtered.

End Host.

End LibraryRaw.

Module LibraryRawSpec.

Import Js LibraryRaw.

(** [d.k], [undefined] where reading it throws. *)
Definition prop (d : Value) (k : string) : Value :=
  match get d k with
  | Some v => v
  | None => Undefined
  end.

Definition is_str (v : Value) : bool :=
  match v with
  | Str _ => true
  | _ => false
  end.

(** An entry that has a name and a description, both strings, as the data
    model says. *)
Definition conforms (d : Value) : bool :=
  is_str (prop d "name") && is_str (prop d "description").



Section Host.

Context (toLowerCase : string -> string).

(** [v] is a string that contains [t] when both are lower-cased. *)
Definition containsTerm (v : Value) (t : string) : Prop :=
  exists s pre post,
    v = Str s /\ toLowerCase s = pre +:+ toLowerCase t +:+ post.

(** The entries the specification's [filter(searchTerm, category)] keeps. *)
Definition kept (searchTerm selectedCategory : string) (d : Value) : Prop :=
  (containsTerm (prop d "name") searchTerm
   \/ containsTerm (prop d "description") searchTerm)
  /\ (selectedCategory = "All" \/ prop d "category" = Str selectedCategory).

Definition includesTerm (v : Value) (t : string) : bool :=
  match v with
  | Str s => includes (toLowerCase s) (toLowerCase t)
  | _ => false
  end.

(** The same test as a boolean. *)
Definition keeps (searchTerm selectedCategory : string) (d : Value) : bool :=
  (String.eqb selectedCategory "All"
   || strict_eq_str (prop d "category") selectedCategory)
  && (includesTerm (prop d "name") searchTerm
      || includesTerm (prop d "description") searchTerm).

End Host.

(** A catalog entry of [Library] as the JSON object it came from. *)
Definition encode (d : Library.Domain) : Value :=
  Object [("id", Library.id d);
          ("name", Str (Library.name d));
          ("description", Str (Library.description d));
          ("category", Str (Library.category d));
          ("file_count", Str (Library.file_count d));
          ("total_size_readable", Str (Library.total_size_readable d));
          ("gdrive_folder_id",
           match Library.gdrive_folder_id d with
           | Some folderId => Str folderId
           | None => Null
           end)].

(** The two entries of the specification's scenario, with a description
    and with whatever other fields they carry. *)
Definition healthCensus (descr : string) (others : list (string * Value))
  : Value :=
  Object (("name", Str "Health Census") :: ("description", Str descr)
          :: ("category", Str "Social") :: others).

Definition roadNetwork (descr : string) (others : list (string * Value))
  : Value :=
  Object (("name", Str "Road Network") :: ("description", Str descr)
          :: ("category", Str "Infrastructure") :: others).



End LibraryRawSpec.

(* ===================================================================== *)
(** * Session predicates                                                  *)
(* ===================================================================== *)

Module SessionSpec.

Import Js UseAuth.

(** The JSON body of a reply the hook goes on to read: an ok response
    whose body parses to something other than [null]. *)
Definition carried (reply : FetchReply Value) : option Value :=
  match reply with
  | Response status (Some data) =>
    if ok status && negb (nullish data) then Some data else None
  | _ => None
  end.

(** A login reply that signs the user in: it carries a body with a user
    record. *)
Definition signs_in (reply : FetchReply Value) : option Value :=
  match carried reply with
  | Some data =>
    if nullish (UseAuthSpec.field data "user") then None else Some data
  | None => None
  end.


(** The world [handleGoogleLogin] leaves after signing in with [data]. *)
Definition signedInWith (rt : Runtime) (data : Value) (w : World) : World :=
  let data_user := UseAuthSpec.field data "user" in
  {| user := data_user;
     token := UseAuthSpec.field data "access_token";
     isAuthenticated := true;
     isLoading := false;
     chatLimits :=
       {| remaining := UseAuthSpec.field data "remaining_chats";
          used := or (or (UseAuthSpec.field data_user "chat_count")
                         (UseAuthSpec.field data "chat_count")) (num 0);
          canChat := allows rt (UseAuthSpec.field data "remaining_chats") |};
     localStorage :=
       <["user_info" := ToString rt (JSON_stringify rt data_user)]>
         (<["auth_token" := ToString rt (UseAuthSpec.field data "access_token")]>
            (localStorage w)) |}.

End SessionSpec.

(* ===================================================================== *)
(** * Library predicates                                                  *)
(* ===================================================================== *)

Module LibraryFlow.

Import Js Library.

(** The calls one [handleDownload] makes for the selected domain [d], in
    order. *)
Definition downloadCalls (p : Props) (b : Browser) (type : string) (d : Domain)
  : list Event :=
  if negb (isPremium p) then [OpenUpgradeModal]
  else
    match folderId_present (gdrive_folder_id d) with
    | None => [Alert (folderMissingMessage d)]
    | Some folderId =>
      Confirm (confirmMessage type d)
      :: if negb (confirm_answer b) then []
         else
           WindowOpen (driveUrl folderId) "_blank" "noopener,noreferrer"
           :: match open_result b with
              | Opened => [TrackDownload (id d) type]
              | Blocked => [Alert popupBlockedMessage]
              | OpenThrows =>
                [ConsoleError "Download error:";
                 Alert "Failed to open Google Drive. Please try again."]
              end
    end.

(** The catalog endpoint answered with a catalog: an ok response with a
    readable body. *)
Definition catalog_of (reply : FetchReply Catalog) : option Catalog :=
  match reply with
  | Response status (Some data) => if ok status then Some data else None
  | _ => None
  end.

(** The cells of the component that hold the catalog and the search. *)
Definition same_catalog (w w' : World) : Prop :=
  domains w' = domains w
  /\ filteredDomains w' = filteredDomains w
  /\ searchTerm w' = searchTerm w
  /\ selectedCategory w' = selectedCategory w
  /\ categories w' = categories w
  /\ loading w' = loading w.

End LibraryFlow.

(* ===================================================================== *)
(** * Further sample inputs                                               *)
(* ===================================================================== *)

Module Samples.

Import Js.

(** A host that writes the profile to storage as one fixed text and reads
    that text back. *)
Definition profileText : string := "{email:ann@example.org}".

Definition sessionRuntime : Runtime :=
  {| StringToNumber := fun _ => NaN;
     ToString := fun v => match v with Str s => s | _ => "" end;
     JSON_stringify :=
       fun v => match v with Object _ => Str profileText | _ => Undefined end;
     subtract := fun _ _ => NaN |}.

Definition parseProfile (s : string) : option Value :=
  if String.eqb s profileText then Some UseAuthSpec.ann else None.

(** The body of a successful login. *)
Definition loginBody : Value :=
  Object [("access_token", Str "tok"); ("user", UseAuthSpec.ann);
          ("remaining_chats", num 3); ("chat_count", num 7)].

(** The body of a successful login whose user record counts 4 chats and
    whose top level counts 7. *)
Definition loginBodyCounted : Value :=
  Object [("access_token", Str "tok");
          ("user", Object [("email", Str "ann@example.org");
                           ("chat_count", num 4)]);
          ("remaining_chats", num 3); ("chat_count", num 7)].

(** A browser in which nothing is stored. *)
Definition firstVisit : UseAuth.World := UseAuth.init UseAuthSpec.tenFree ∅.

Definition hostErrors : UpgradeOrder.HostErrors :=
  {| UpgradeOrder.fetch_failed_message := "Failed to fetch";
     UpgradeOrder.json_failed_message := "Unexpected end of JSON input";
     UpgradeOrder.null_property_message := "Cannot read properties of null";
     UpgradeOrder.not_constructor_message := "window.Razorpay is not a constructor" |}.

Definition orderBody : Value :=
  Object [("order_id", Str "order_9A33XWu170gUtm"); ("amount", num 49900);
          ("currency", Str "INR")].

End Samples.

(* ===================================================================== *)
(** * Facts about the JavaScript operators                                *)
(* ===================================================================== *)

Module JsFacts.

Import Js.

Lemma append_nil (t : string) : "" +:+ t = t.
Proof. reflexivity. Qed.

Lemma append_cons (c : ascii) (s t : string) :
  String c s +:+ t = String c (s +:+ t).
Proof. reflexivity. Qed.

Lemma prefix_app (needle hay : string) :
  String.prefix needle hay = true <-> exists post, hay = needle +:+ post.
Proof.
  revert hay. induction needle as [|c needle IH]; intros [|c' hay]; simpl.
  - split; eauto.
  - split; eauto.
  - split; [discriminate | intros [post H]; discriminate].
  - destruct (ascii_dec c c') as [->|Hne].
    + rewrite IH.
      split; intros [post H]; exists post; rewrite append_cons in *; congruence.
    + split; [discriminate|].
      intros [post H]; rewrite append_cons in H; congruence.
Qed.

Lemma includes_app (hay needle : string) :
  includes hay needle = true <->
  exists pre post, hay = pre +:+ needle +:+ post.
Proof.
  induction hay as [|c hay IH].
  - cbn [includes]. destruct (String.prefix needle "") eqn:E.
    + apply prefix_app in E as [post E]. split; [|reflexivity].
      intros _. exists "", post. exact E.
    + split; [discriminate|]. intros (pre & post & H).
      destruct pre; [|discriminate]. rewrite append_nil in H.
      assert (String.prefix needle "" = true) by (apply prefix_app; eauto).
      congruence.
  - cbn [includes]. destruct (String.prefix needle (String c hay)) eqn:E.
    + apply prefix_app in E as [post E]. split; [|reflexivity].
      intros _. exists "", post. exact E.
    + rewrite IH. split.
      * intros (pre & post & ->). exists (String c pre), post. reflexivity.
      * intros (pre & post & H). destruct pre as [|c' pre].
        -- rewrite append_nil in H.
           assert (String.prefix needle (String c hay) = true)
             by (apply prefix_app; eauto).
           congruence.
        -- rewrite append_cons in H. injection H as _ ->. eauto.
Qed.

Lemma includes_empty (hay : string) : includes hay "" = true.
Proof. destruct hay; reflexivity. Qed.

End JsFacts.

(* ===================================================================== *)
(** * Facts about lists                                                   *)
(* ===================================================================== *)

Module ListFacts.

Lemma filter_both {A} (f g : A -> bool) (l : list A) :
  List.filter g (List.filter f l) = List.filter (fun x => f x && g x) l.
Proof.
  induction l as [|x l IH]; [reflexivity|].
  simpl. destruct (f x); simpl; [destruct (g x)|]; rewrite IH; reflexivity.
Qed.

Lemma filter_all {A} (f : A -> bool) (l : list A) :
  (forall x, f x = true) -> List.filter f l = l.
Proof.
  intros Hf. induction l as [|x l IH]; [reflexivity|].
  simpl. rewrite Hf, IH. reflexivity.
Qed.

Lemma filter_twice {A} (f : A -> bool) (l : list A) :
  List.filter f (List.filter f l) = List.filter f l.
Proof.
  rewrite filter_both. apply List.filter_ext.
  intros x. destruct (f x); reflexivity.
Qed.

Lemma skipn_own_length {A} (l k : list A) : skipn (length l) (l ++ k) = k.
Proof. induction l as [|x l IH]; [reflexivity | exact IH]. Qed.

Lemma skipn_all_own {A} (l : list A) : skipn (length l) l = [].
Proof. induction l as [|x l IH]; [reflexivity | exact IH]. Qed.

End ListFacts.

(* ===================================================================== *)
(** * The library browser: filtering                                      *)
(* ===================================================================== *)

Module LibraryFilter.

Import Js Library LibrarySpec JsFacts ListFacts.

Lemma matchesSearch_empty (d : Domain) : matchesSearch "" d = true.
Proof. unfold matchesSearch. simpl. rewrite includes_empty. reflexivity. Qed.

Lemma matchesSearch_contains (t : string) (d : Domain) :
  matchesSearch t d = true <->
  contains_ci (name d) t \/ contains_ci (description d) t.
Proof.
  unfold matchesSearch, contains_ci.
  rewrite orb_true_iff, !includes_app. reflexivity.
Qed.

Lemma keeps_kept (t c : string) (d : Domain) :
  keeps t c d = true <-> kept t c d.
Proof.
  unfold keeps, kept.
  rewrite andb_true_iff, orb_true_iff, !String.eqb_eq, matchesSearch_contains.
  tauto.
Qed.

(** The two optional passes of [filterDomains] amount to one pass with the
    combined test. *)
Lemma filtered_one_pass (L : list Domain) (t c : string) :
  filtered L t c = List.filter (keeps t c) L.
Proof.
  unfold filtered, keeps.
  destruct (String.eqb c "All") eqn:Ec; destruct (String.eqb t "") eqn:Et; simpl.
  - apply String.eqb_eq in Et as ->. symmetry. apply filter_all.
    intros d. apply matchesSearch_empty.
  - reflexivity.
  - apply String.eqb_eq in Et as ->.
    apply List.filter_ext. intros d.
    rewrite matchesSearch_empty, andb_true_r. reflexivity.
  - apply filter_both.
Qed.

(** C6. Filtering is idempotent: filtering the output of the filter again
    with the same term and category returns that output unchanged, both
    for the list computed and for the component re-run on a catalog that
    is its own previous output. *)
Theorem C6_filter_idempotent :
  (forall (L : list Domain) (t c : string),
      filtered (filtered L t c) t c = filtered L t c)
  /\ (forall w : World,
        let w1 := Eff.exec filterDomains w in
        let w2 := Eff.exec (Eff.bind (setDomains (filteredDomains w1))
                                     (fun _ => filterDomains)) w1 in
        filteredDomains w2 = filteredDomains w1).
Proof.
  assert (Hidem : forall (L : list Domain) (t c : string),
             filtered (filtered L t c) t c = filtered L t c).
  { intros L t c. rewrite !filtered_one_pass. apply filter_twice. }
  split; [exact Hidem|].
  intros w. cbn. apply Hidem.
Qed.

End LibraryFilter.

(* ===================================================================== *)
(** * The library browser: handlers                                       *)
(* ===================================================================== *)

Module LibraryHandlers.

Import Js Library LibrarySpec ListFacts.

Lemma not_premium (p : Props) :
  isPremium p = false <-> chatLimits_remaining p <> num (-1).
Proof.
  unfold isPremium, strict_eq_num, num.
  destruct (chatLimits_remaining p) as [| |b|[z|]|s|o|a];
    try (split; [discriminate | reflexivity]).
  rewrite Z.eqb_neq. split; congruence.
Qed.

Lemma premium (p : Props) :
  isPremium p = true <-> chatLimits_remaining p = num (-1).
Proof.
  unfold isPremium, strict_eq_num, num.
  destruct (chatLimits_remaining p) as [| |b|[z|]|s|o|a];
    try (split; discriminate).
  rewrite Z.eqb_eq. split; congruence.
Qed.

(** C4. A domain click by a premium user ([chatLimits.remaining] is -1)
    opens the download confirmation for the clicked domain and makes no
    call of the upgrade prompt; a click by anyone else (in particular with
    [remaining] 0) calls the upgrade prompt once, and with such an
    entitlement the download confirmation is not rendered in any state of
    the component. *)
Theorem C4_domain_click_gate (p : Props) (domain : Domain) (w : World) :
  let w' := Eff.exec (handleDomainClick p domain) w in
  (chatLimits_remaining p = num (-1) ->
     calls (handleDomainClick p domain) w = []
     /\ selectedDomain w' = Some domain
     /\ downloadModalOpen w' = true
     /\ rendersDownloadModal p w' = isOpen p)
  /\ (chatLimits_remaining p <> num (-1) ->
       calls (handleDomainClick p domain) w = [OpenUpgradeModal]
       /\ selectedDomain w' = selectedDomain w
       /\ downloadModalOpen w' = downloadModalOpen w
       /\ forall any : World, rendersDownloadModal p any = false).
Proof.
  cbv zeta. unfold calls, handleDomainClick, rendersDownloadModal. split.
  - intros Hp. apply premium in Hp. rewrite Hp. cbn.
    rewrite skipn_all_own, andb_true_r. auto.
  - intros Hp. apply not_premium in Hp. rewrite Hp. cbn.
    rewrite skipn_own_length. repeat split.
    intros any. rewrite !andb_false_r. reflexivity.
Qed.

(** C9. When [fetchDomains] fails (the request does not complete, the
    response is not ok, or its body does not parse), the catalog, the
    category list and the filtered list keep their previous values, and so
    does every other cell but [loading], which ends false; the failure is
    logged with one [console.error], no alert is shown and no exception
    leaves the handler. *)
Theorem C9_fetchDomains_stale_on_error (reply : FetchReply Catalog) (w : World) :
  fetch_failed reply = true ->
  let w' := Eff.exec (fetchDomains reply) w in
  Eff.result (fetchDomains reply) w = Eff.Returned tt
  /\ domains w' = domains w
  /\ categories w' = categories w
  /\ filteredDomains w' = filteredDomains w
  /\ searchTerm w' = searchTerm w
  /\ selectedCategory w' = selectedCategory w
  /\ selectedDomain w' = selectedDomain w
  /\ downloadModalOpen w' = downloadModalOpen w
  /\ loading w' = false
  /\ calls (fetchDomains reply) w = [ConsoleError "Error fetching domains:"]
  /\ (forall message, ~ In (Alert message) (calls (fetchDomains reply) w)).
Proof.
  intros Hfail w'. subst w'.
  assert (Hrun : fetchDomains reply w
                 = (Eff.Returned tt,
                    with_loading false
                      (Eff.exec (emit (ConsoleError "Error fetching domains:"))
                         (with_loading true w)))).
  { unfold fetchDomains, Eff.finally, Eff.try_catch.
    destruct reply as [|status [data|]]; cbn in Hfail |- *.
    - reflexivity.
    - rewrite orb_false_r in Hfail. rewrite Hfail. reflexivity.
    - destruct (ok status); reflexivity. }
  unfold calls, Eff.exec, Eff.result. rewrite Hrun. cbn.
  rewrite skipn_own_length. repeat split.
  intros message [H|[]]. discriminate.
Qed.

(** C3 (as amended). With a domain selected, [handleDownload] issues a
    tracking call only after [window.open] has answered with a usable
    window handle, which takes a premium entitlement, a folder link and
    the user's confirmation, and the call then records the id of the
    selected domain and the download type; when [window.open] does answer
    with a usable handle, that one tracking call follows the
    [window.open].  Whether the folder opened in a new tab is not what
    decides: the features passed are "noopener,noreferrer", for which the
    answer is [null] also when the tab opens.  In every other outcome no
    tracking call is issued and the calls are exactly: the upgrade prompt
    without a premium entitlement; the folder-missing alert when the link
    is missing; the confirmation alone when the user cancels; the
    confirmation, the [window.open] and the popup alert when [window.open]
    answers with no usable handle; the confirmation, the [window.open], a
    [console.error] and the failure alert when [window.open] throws. *)
Theorem C3_tracking_only_after_open
  (p : Props) (b : Browser) (type : string) (w : World) (d : Domain) :
  selectedDomain w = Some d ->
  (forall (i : Value) (t : string),
      In (TrackDownload i t) (calls (handleDownload p b type) w) ->
      i = id d /\ t = type
      /\ isPremium p = true
      /\ (exists folderId, folderId_present (gdrive_folder_id d) = Some folderId)
      /\ confirm_answer b = true
      /\ open_result b = Opened)
  /\ (isPremium p = false ->
      calls (handleDownload p b type) w = [OpenUpgradeModal])
  /\ (isPremium p = true ->
      folderId_present (gdrive_folder_id d) = None ->
      calls (handleDownload p b type) w = [Alert (folderMissingMessage d)])
  /\ (forall folderId,
        isPremium p = true ->
        folderId_present (gdrive_folder_id d) = Some folderId ->
        (confirm_answer b = false ->
         calls (handleDownload p b type) w = [Confirm (confirmMessage type d)])
        /\ (confirm_answer b = true -> open_result b = Blocked ->
            calls (handleDownload p b type) w
            = [Confirm (confirmMessage type d);
               WindowOpen (driveUrl folderId) "_blank" "noopener,noreferrer";
               Alert popupBlockedMessage])
        /\ (confirm_answer b = true -> open_result b = OpenThrows ->
            calls (handleDownload p b type) w
            = [Confirm (confirmMessage type d);
               WindowOpen (driveUrl folderId) "_blank" "noopener,noreferrer";
               ConsoleError "Download error:";
               Alert "Failed to open Google Drive. Please try again."])
        /\ (confirm_answer b = true -> open_result b = Opened ->
            calls (handleDownload p b type) w
            = [Confirm (confirmMessage type d);
               WindowOpen (driveUrl folderId) "_blank" "noopener,noreferrer";
               TrackDownload (id d) type])).
Proof.
  intros Hsel.
  unfold calls, handleDownload, Eff.exec, Eff.bind, Eff.gets.
  rewrite Hsel.
  destruct (isPremium p); cbn.
  2:{ rewrite <- ?app_assoc, skipn_own_length.
      split; [|split; [|split]]; try discriminate; try reflexivity.
      cbn. intuition discriminate. }
  unfold Eff.try_catch.
  destruct (folderId_present (gdrive_folder_id d)) as [folderId|]; cbn.
  2:{ rewrite skipn_own_length.
      split; [|split; [|split]]; try discriminate; try reflexivity.
      cbn. intuition discriminate. }
  destruct (confirm_answer b); cbn.
  2:{ rewrite skipn_own_length.
      split; [|split; [|split]]; try discriminate.
      - cbn. intuition discriminate.
      - intros f _ Hf. injection Hf as <-.
        split; [reflexivity|]. split; [discriminate|]. split; discriminate. }
  destruct (open_result b); cbn; rewrite <- ?app_assoc, skipn_own_length;
    (split; [|split; [|split]]); try discriminate.
  - intros i t Hin. cbn in Hin.
    destruct Hin as [Hin|[Hin|[Hin|[]]]]; try discriminate Hin.
    injection Hin as <- <-. repeat apply conj; eauto.
  - intros f _ Hf. injection Hf as <-.
    split; [discriminate|]. split; [discriminate|].
    split; [discriminate | reflexivity].
  - cbn. intuition discriminate.
  - intros f _ Hf. injection Hf as <-.
    split; [discriminate|]. split; [reflexivity|]. split; discriminate.
  - cbn. intuition discriminate.
  - intros f _ Hf. injection Hf as <-.
    split; [discriminate|]. split; [discriminate|].
    split; [reflexivity | discriminate].
Qed.

Lemma C4_domain_click_witness :
  (chatLimits_remaining premiumProps = num (-1)
   /\ calls (handleDomainClick premiumProps roads) browsing = []
   /\ selectedDomain (Eff.exec (handleDomainClick premiumProps roads) browsing)
      = Some roads
   /\ downloadModalOpen (Eff.exec (handleDomainClick premiumProps roads) browsing)
      = true
   /\ rendersDownloadModal premiumProps
        (Eff.exec (handleDomainClick premiumProps roads) browsing)
      = isOpen premiumProps)
  /\ (chatLimits_remaining freeProps <> num (-1)
      /\ calls (handleDomainClick freeProps roads) browsing = [OpenUpgradeModal]
      /\ selectedDomain (Eff.exec (handleDomainClick freeProps roads) browsing)
         = selectedDomain browsing
      /\ downloadModalOpen (Eff.exec (handleDomainClick freeProps roads) browsing)
         = downloadModalOpen browsing
      /\ forall any : World, rendersDownloadModal freeProps any = false).
Proof.
  split.
  - split; [reflexivity|].
    apply (proj1 (C4_domain_click_gate premiumProps roads browsing)).
    reflexivity.
  - split; [discriminate|].
    apply (proj2 (C4_domain_click_gate freeProps roads browsing)).
    discriminate.
Defined.

Lemma C9_fetchDomains_witness :
  fetch_failed (Response 500 None) = true
  /\ domains (Eff.exec (fetchDomains (Response 500 None)) (modalOpenOn roads))
     = [health; roads]
  /\ calls (fetchDomains (Response 500 None)) (modalOpenOn roads)
     = [ConsoleError "Error fetching domains:"].
Proof.
  split; [reflexivity|].
  pose proof (C9_fetchDomains_stale_on_error (Response 500 None)
                (modalOpenOn roads) eq_refl) as H.
  split; [apply H | apply H].
Defined.

Lemma C3_tracking_witness :
  selectedDomain (modalOpenOn roads) = Some roads
  /\ isPremium premiumProps = true
  /\ folderId_present (gdrive_folder_id roads) = Some "1AbCdEf"
  /\ confirm_answer userConfirms_popupBlocked = true
  /\ open_result userConfirms_popupBlocked = Blocked
  /\ calls (handleDownload premiumProps userConfirms_popupBlocked "zip")
           (modalOpenOn roads)
     = [Confirm (confirmMessage "zip" roads);
        WindowOpen (driveUrl "1AbCdEf") "_blank" "noopener,noreferrer";
        Alert popupBlockedMessage].
Proof.
  repeat (split; [reflexivity|]).
  exact (proj1 (proj2 (proj2 (proj2 (proj2
           (C3_tracking_only_after_open premiumProps userConfirms_popupBlocked
              "zip" (modalOpenOn roads) roads eq_refl)))
           "1AbCdEf" eq_refl eq_refl)) eq_refl eq_refl).
Defined.

(** C3 as the specification words it fails: with a domain selected and a
    premium entitlement, no tracking call is issued when the folder link
    is missing (the only call is the alert), when the user cancels the
    confirmation, or when the new browsing context is blocked. *)
Lemma C3_counterexample :
  selectedDomain (modalOpenOn roadsNoFolder) = Some roadsNoFolder
  /\ calls (handleDownload premiumProps userConfirms_windowOpens "zip")
           (modalOpenOn roadsNoFolder)
     = [Alert "Google Drive folder not found for Road Network"]
  /\ ~ In (TrackDownload (id roadsNoFolder) "zip")
          (calls (handleDownload premiumProps userConfirms_windowOpens "zip")
                 (modalOpenOn roadsNoFolder))
  /\ selectedDomain (modalOpenOn roads) = Some roads
  /\ ~ In (TrackDownload (id roads) "zip")
          (calls (handleDownload premiumProps userCancels "zip")
                 (modalOpenOn roads))
  /\ ~ In (TrackDownload (id roads) "zip")
          (calls (handleDownload premiumProps userConfirms_popupBlocked "zip")
                 (modalOpenOn roads)).
Proof.
  repeat split; try reflexivity; vm_compute; intuition discriminate.
Qed.

End LibraryHandlers.

(* ===================================================================== *)
(** * The session hook                                                    *)
(* ===================================================================== *)

Module UseAuthFacts.

Import Js UseAuth UseAuthSpec.

Lemma strict_eq_num_true (v : Value) (z : Z) :
  strict_eq_num v z = true <-> v = num z.
Proof.
  unfold strict_eq_num, num.
  destruct v as [| |b|[x|]|s|o|a]; try (split; discriminate).
  rewrite Z.eqb_eq. split; congruence.
Qed.

Lemma allows_spec (rt : Runtime) (r : Value) :
  allows rt r = true <-> (gt rt r 0 = true \/ r = num (-1)).
Proof.
  unfold allows. rewrite orb_true_iff, strict_eq_num_true. reflexivity.
Qed.

(** On an integer the test is the arithmetic one. *)
Lemma allows_int (rt : Runtime) (z : Z) :
  allows rt (num z) = true <-> (0 < z \/ z = -1).
Proof.
  unfold allows, gt, num. cbn.
  rewrite orb_true_iff, Z.ltb_lt, Z.eqb_eq. reflexivity.
Qed.

Lemma derived_allows (rt : Runtime) (r u : Value) :
  derived rt {| remaining := r; used := u; canChat := allows rt r |}.
Proof. unfold derived. cbn. apply allows_spec. Qed.

Lemma derived_default (rt : Runtime) (LIMITS : Limits) :
  0 < FREE_CHAT_LIMIT LIMITS -> derived rt (defaultLimits LIMITS).
Proof.
  intros Hfree. unfold derived, defaultLimits, gt. cbn.
  split; [|reflexivity]. intros _. left. apply Z.ltb_lt. exact Hfree.
Qed.

Lemma get_some (data : Value) (k : string) :
  nullish data = false -> get data k = Some (field data k).
Proof. unfold field. destruct data; cbn; intros H; congruence. Qed.

Lemma get_none (data : Value) (k : string) :
  nullish data = true -> get data k = None.
Proof. destruct data; cbn; intros H; congruence. Qed.

(** What [logout] leaves behind. *)
Lemma logout_run (LIMITS : Limits) (w : World) :
  logout LIMITS w
  = (Eff.Returned tt,
     {| user := Null; token := Null; isAuthenticated := false;
        isLoading := isLoading w; chatLimits := defaultLimits LIMITS;
        localStorage := delete "user_info" (delete "auth_token" (localStorage w)) |}).
Proof. reflexivity. Qed.

(** [fetchUserStatus] by cases on the reply, for a stored token. *)
Lemma fetchUserStatus_run (rt : Runtime) (LIMITS : Limits)
  (reply : FetchReply Value) (w : World) :
  truthy (token w) = true ->
  fetchUserStatus rt LIMITS reply w
  = match reply with
    | NetworkError => (Eff.Returned tt, w)
    | Response status body =>
      if ok status then
        match body with
        | Some data =>
          if nullish data then (Eff.Returned tt, w)
          else
            (Eff.Returned tt,
             {| user := if truthy (field data "user") then field data "user"
                        else user w;
                token := token w;
                isAuthenticated := isAuthenticated w;
                isLoading := isLoading w;
                chatLimits := reportedLimits rt data;
                localStorage :=
                  if truthy (field data "user")
                  then <["user_info" :=
                           ToString rt (JSON_stringify rt (field data "user"))]>
                         (localStorage w)
                  else localStorage w |})
        | None => (Eff.Returned tt, w)
        end
      else if status =? 401 then logout LIMITS w
      else (Eff.Returned tt, w)
    end.
Proof.
  intros Htok.
  unfold fetchUserStatus, Eff.bind at 1, Eff.gets. rewrite Htok. cbn [negb].
  unfold Eff.try_catch.
  destruct reply as [|status body]; [reflexivity|].
  cbn [Eff.await_fetch Eff.bind Eff.ret fst snd].
  destruct (ok status).
  2:{ destruct (status =? 401); [rewrite logout_run|]; reflexivity. }
  destruct body as [data|]; [|reflexivity].
  destruct (nullish data) eqn:Hnull.
  - cbn -[get]. rewrite (get_none data "user" Hnull). reflexivity.
  - unfold reportedLimits. cbn -[get field truthy coalesce allows].
    rewrite !(get_some data _ Hnull). cbn -[field truthy coalesce allows].
    destruct (truthy (field data "user")); reflexivity.
Qed.

(** [checkChatLimits] by cases on the reply. *)
Lemma checkChatLimits_run (rt : Runtime) (LIMITS : Limits)
  (reply : FetchReply Value) (w : World) :
  checkChatLimits rt LIMITS reply w
  = if truthy (token w) then
      match reply with
      | Response status (Some data) =>
        if ok status && negb (nullish data) then
          let remaining_chats := field data "remaining_chats" in
          (Eff.Returned (allows rt remaining_chats),
           {| user := user w; token := token w;
              isAuthenticated := isAuthenticated w; isLoading := isLoading w;
              chatLimits :=
                {| remaining := remaining_chats;
                   used := sub rt (FREE_CHAT_LIMIT LIMITS) remaining_chats;
                   canChat := allows rt remaining_chats |};
              localStorage := localStorage w |})
        else (Eff.Returned false, w)
      | _ => (Eff.Returned false, w)
      end
    else (Eff.Returned false, w).
Proof.
  unfold checkChatLimits, Eff.bind at 1, Eff.gets.
  destruct (truthy (token w)); [|reflexivity]. cbn [negb].
  unfold Eff.try_catch.
  destruct reply as [|status body]; [reflexivity|].
  cbn [Eff.await_fetch Eff.bind Eff.ret fst snd].
  destruct (ok status); [|destruct body; reflexivity].
  destruct body as [data|]; [|reflexivity].
  destruct (nullish data) eqn:Hnull.
  - cbn -[get]. rewrite (get_none data _ Hnull). reflexivity.
  - cbn -[get field allows sub].
    rewrite (get_some data _ Hnull). reflexivity.
Qed.

(** After [handleGoogleLogin] the snapshot is either the one the login
    reply carried or, on every failure, the default [logout] writes. *)
Lemma handleGoogleLogin_limits (rt : Runtime) (LIMITS : Limits)
  (reply : FetchReply Value) (w : World) :
  let c := chatLimits (Eff.exec (handleGoogleLogin rt LIMITS reply) w) in
  c = defaultLimits LIMITS
  \/ exists r u, c = {| remaining := r; used := u; canChat := allows rt r |}.
Proof.
  cbv zeta.
  unfold Eff.exec, handleGoogleLogin, Eff.bind at 1, setIsLoading, Eff.modify.
  unfold Eff.finally, Eff.try_catch.
  destruct reply as [|status body]; [left; reflexivity|].
  cbn [Eff.await_fetch Eff.bind Eff.ret fst snd].
  destruct (ok status); [|left; reflexivity]. cbn [negb].
  destruct body as [data|]; [|left; reflexivity].
  destruct (nullish data) eqn:Hnull.
  - cbn -[get]. rewrite (get_none data _ Hnull). left. reflexivity.
  - cbn -[get get_opt field allows or].
    rewrite !(get_some data _ Hnull).
    cbn -[get get_opt field allows or].
    assert (Hopt : exists v, get_opt (field data "user") "chat_count" = Some v).
    { unfold get_opt. destruct (nullish (field data "user")) eqn:E; eauto.
      rewrite (get_some _ _ E). eauto. }
    destruct Hopt as [v ->]. cbn -[get field allows or].
    destruct (get (field data "user") "email"); cbn -[field allows or].
    + right. eauto.
    + left. reflexivity.
Qed.

(** C1. With a positive free allowance [LIMITS.FREE_CHAT_LIMIT], every
    operation that writes the [chatLimits] snapshot leaves one in which
    [canChat] holds exactly when [remaining > 0] or [remaining] is -1: the
    initial state, [handleGoogleLogin] (on its success path and on the
    failure path that logs out), [updateChatLimits] for every pair of
    arguments and [logout] always, and [fetchUserStatus] and
    [checkChatLimits] whenever they write the snapshot at all (otherwise
    they leave it as it was).  On an integer [remaining] the condition is
    the arithmetic one. *)
Theorem C1_canChat_derived (rt : Runtime) (LIMITS : Limits) :
  0 < FREE_CHAT_LIMIT LIMITS ->
  (forall ls, derived rt (chatLimits (init LIMITS ls)))
  /\ (forall reply w,
        derived rt (chatLimits (Eff.exec (handleGoogleLogin rt LIMITS reply) w)))
  /\ (forall reply w,
        let w' := Eff.exec (fetchUserStatus rt LIMITS reply) w in
        chatLimits w' = chatLimits w \/ derived rt (chatLimits w'))
  /\ (forall reply w,
        let w' := Eff.exec (checkChatLimits rt LIMITS reply) w in
        chatLimits w' = chatLimits w \/ derived rt (chatLimits w'))
  /\ (forall newRemaining newUsed w,
        derived rt
          (chatLimits (Eff.exec (updateChatLimits rt newRemaining newUsed) w)))
  /\ (forall w, derived rt (chatLimits (Eff.exec (logout LIMITS) w)))
  /\ (forall c z,
        derived rt c -> remaining c = num z ->
        (canChat c = true <-> (0 < z \/ z = -1))).
Proof.
  intros Hfree. repeat apply conj.
  - intros ls. apply derived_default, Hfree.
  - intros reply w.
    destruct (handleGoogleLogin_limits rt LIMITS reply w) as [->|(r & u & ->)].
    + apply derived_default, Hfree.
    + apply derived_allows.
  - intros reply w. cbv zeta. unfold Eff.exec.
    destruct (truthy (token w)) eqn:Htok.
    + rewrite (fetchUserStatus_run rt LIMITS reply w Htok).
      destruct reply as [|status [data|]]; cbn [snd]; auto.
      * destruct (ok status).
        -- destruct (nullish data); cbn [snd chatLimits]; auto.
           right. apply derived_allows.
        -- destruct (status =? 401); auto.
           right. rewrite logout_run. apply derived_default, Hfree.
      * destruct (ok status); auto.
        destruct (status =? 401); auto.
        right. rewrite logout_run. apply derived_default, Hfree.
    + left. unfold fetchUserStatus, Eff.bind, Eff.gets. rewrite Htok. reflexivity.
  - intros reply w. cbv zeta. unfold Eff.exec.
    rewrite checkChatLimits_run.
    destruct (truthy (token w)); auto.
    destruct reply as [|status [data|]]; auto.
    destruct (ok status && negb (nullish data)); auto.
    right. apply derived_allows.
  - intros newRemaining newUsed w. apply derived_allows.
  - intros w. unfold Eff.exec. rewrite logout_run. apply derived_default, Hfree.
  - intros c z Hc Hz. unfold derived in Hc. rewrite Hc, Hz.
    unfold gt, num. cbn. rewrite Z.ltb_lt.
    split; (intros [H|H]; [left; exact H | right; congruence]).
Qed.

Lemma C1_canChat_witness :
  0 < FREE_CHAT_LIMIT tenFree
  /\ derived plainRuntime (chatLimits (init tenFree ∅))
  /\ derived plainRuntime
       (chatLimits (Eff.exec (updateChatLimits plainRuntime (num (-1)) (num 4))
                             signedIn))
  /\ derived plainRuntime (chatLimits (Eff.exec (logout tenFree) signedIn)).
Proof.
  assert (Hfree : 0 < FREE_CHAT_LIMIT tenFree) by reflexivity.
  pose proof (C1_canChat_derived plainRuntime tenFree Hfree)
    as (Hinit & _ & _ & _ & Hupdate & Hlogout & _).
  split; [exact Hfree|]. split; [apply Hinit|]. split; [apply Hupdate|].
  apply Hlogout.
Defined.

(** C2 (as amended). On an ok response whose body is readable JSON other
    than [null], [checkChatLimits] stores as [used] the difference
    [LIMITS.FREE_CHAT_LIMIT - remaining_chats], whatever else the body
    carries: a [used] or [chat_count] the backend supplies is not read.
    For an integer [remaining_chats] the stored value is the integer
    difference whenever the limit, [remaining_chats] and their difference
    are safe integers.  On an ok response whose body is [null] or does not
    parse it stores nothing and answers false. *)
Theorem C2_used_is_recomputed (rt : Runtime) (LIMITS : Limits)
  (status : Z) (body : option Value) (w : World) :
  truthy (token w) = true ->
  ok status = true ->
  let w' := Eff.exec (checkChatLimits rt LIMITS (Response status body)) w in
  let answer := Eff.result (checkChatLimits rt LIMITS (Response status body)) w in
  (forall data remaining_chats,
      body = Some data ->
      get data "remaining_chats" = Some remaining_chats ->
      remaining (chatLimits w') = remaining_chats
      /\ used (chatLimits w') = sub rt (FREE_CHAT_LIMIT LIMITS) remaining_chats
      /\ (forall z,
            remaining_chats = num z ->
            safe (FREE_CHAT_LIMIT LIMITS) = true ->
            safe z = true ->
            safe (FREE_CHAT_LIMIT LIMITS - z) = true ->
            used (chatLimits w') = num (FREE_CHAT_LIMIT LIMITS - z))
      /\ answer = Eff.Returned (allows rt remaining_chats))
  /\ (forall data,
        body = Some data -> nullish data = true ->
        w' = w /\ answer = Eff.Returned false)
  /\ (body = None -> w' = w /\ answer = Eff.Returned false).
Proof.
  intros Htok Hok. cbv zeta. unfold Eff.exec, Eff.result.
  rewrite checkChatLimits_run, Htok. repeat apply conj.
  - intros data remaining_chats -> Hget. rewrite Hok.
    assert (Hnull : nullish data = false)
      by (destruct data; cbn in *; congruence).
    rewrite Hnull. cbn [andb negb].
    assert (Hfield : field data "remaining_chats" = remaining_chats)
      by (unfold field; rewrite Hget; reflexivity).
    cbv zeta. rewrite Hfield. cbn [fst snd chatLimits remaining used].
    repeat apply conj; try reflexivity.
    intros z -> Hfree Hz Hdiff. unfold sub. cbn [ToNumber num].
    rewrite Hfree, Hz, Hdiff. reflexivity.
  - intros data -> Hnull. rewrite Hok, Hnull. split; reflexivity.
  - intros ->. split; reflexivity.
Qed.

Lemma C2_used_witness :
  truthy (token signedIn) = true
  /\ ok 200 = true
  /\ get limitsBody "remaining_chats" = Some (num 8)
  /\ safe (FREE_CHAT_LIMIT tenFree) = true
  /\ safe 8 = true
  /\ safe (FREE_CHAT_LIMIT tenFree - 8) = true
  /\ used (chatLimits
             (Eff.exec (checkChatLimits plainRuntime tenFree
                          (Response 200 (Some limitsBody))) signedIn))
     = num 2.
Proof.
  repeat (split; [reflexivity|]).
  exact (proj1 (proj2 (proj2
           (proj1 (C2_used_is_recomputed plainRuntime tenFree 200
                     (Some limitsBody) signedIn eq_refl eq_refl)
              limitsBody (num 8) eq_refl eq_refl)))
           8 eq_refl eq_refl eq_refl eq_refl).
Defined.

(** C2 as the specification words it fails: the backend supplies
    [chat_count] and [used] (both 5) next to [remaining_chats] 8, and with
    a free allowance of 10 the hook stores [used] 2, not the supplied 5. *)
Lemma C2_counterexample :
  truthy (token signedIn) = true
  /\ get limitsBody "chat_count" = Some (num 5)
  /\ get limitsBody "used" = Some (num 5)
  /\ used (chatLimits
             (Eff.exec (checkChatLimits plainRuntime tenFree
                          (Response 200 (Some limitsBody))) signedIn))
     = num 2
  /\ used (chatLimits
             (Eff.exec (checkChatLimits plainRuntime tenFree
                          (Response 200 (Some limitsBody))) signedIn))
     <> num 5.
Proof. repeat split. vm_compute. discriminate. Qed.

(** The same for every safe value of the free allowance: a supplied
    [used] of [FREE_CHAT_LIMIT + 1] next to [remaining_chats] 0 is never
    stored. *)
Lemma supplied_used_not_stored (rt : Runtime) (LIMITS : Limits) :
  safe (FREE_CHAT_LIMIT LIMITS) = true ->
  let body := Object [("remaining_chats", num 0);
                      ("used", num (FREE_CHAT_LIMIT LIMITS + 1))] in
  used (chatLimits
          (Eff.exec (checkChatLimits rt LIMITS (Response 200 (Some body)))
                    signedIn))
  <> field body "used".
Proof.
  intros Hsafe. cbv zeta. unfold Eff.exec. rewrite checkChatLimits_run.
  cbn -[sub]. unfold sub. cbn [ToNumber num].
  rewrite Z.sub_0_r, Hsafe. cbn.
  unfold num. intros H. injection H as H. lia.
Qed.

(** C8 (as amended). [fetchUserStatus], called with a stored token, never
    lets an exception out and has three outcomes.  On an HTTP 401 response
    it does what [logout] does: user, token and authentication flag are
    cleared, [chatLimits] is the default, and both persisted entries are
    removed.  On an ok response whose body carries a snapshot it replaces
    [chatLimits] with the reported snapshot, and replaces the user profile
    (in memory and in storage) when the body carries one, keeping the
    profile otherwise; the token and the authentication flag stay.  On
    every other reply (any other status, an unreadable or [null] body, a
    failed request) the whole state is left as it was. *)
Theorem C8_fetchUserStatus_outcomes (rt : Runtime) (LIMITS : Limits)
  (reply : FetchReply Value) (w : World) :
  truthy (token w) = true ->
  let w' := Eff.exec (fetchUserStatus rt LIMITS reply) w in
  Eff.result (fetchUserStatus rt LIMITS reply) w = Eff.Returned tt
  /\ (forall body, reply = Response 401 body ->
        w' = Eff.exec (logout LIMITS) w
        /\ user w' = Null
        /\ token w' = Null
        /\ isAuthenticated w' = false
        /\ chatLimits w' = defaultLimits LIMITS
        /\ localStorage w' !! "auth_token" = None
        /\ localStorage w' !! "user_info" = None)
  /\ (forall data, reports reply = Some data ->
        chatLimits w' = reportedLimits rt data
        /\ (truthy (field data "user") = true ->
              user w' = field data "user"
              /\ localStorage w' !! "user_info"
                 = Some (ToString rt (JSON_stringify rt (field data "user"))))
        /\ (truthy (field data "user") = false ->
              user w' = user w /\ localStorage w' = localStorage w)
        /\ token w' = token w
        /\ isAuthenticated w' = isAuthenticated w)
  /\ ((forall body, reply <> Response 401 body) ->
       reports reply = None -> w' = w).
Proof.
  intros Htok. cbv zeta. unfold Eff.exec, Eff.result.
  rewrite (fetchUserStatus_run rt LIMITS reply w Htok).
  repeat apply conj.
  - destruct reply as [|status [data|]]; [reflexivity| |].
    + destruct (ok status); [destruct (nullish data); reflexivity|].
      destruct (status =? 401); reflexivity.
    + destruct (ok status); [reflexivity|].
      destruct (status =? 401); reflexivity.
  - intros body ->. cbn. repeat apply conj; try reflexivity.
    + rewrite lookup_delete_ne by discriminate. apply lookup_delete_eq.
    + apply lookup_delete_eq.
  - intros data Hrep. destruct reply as [|status [data'|]]; try discriminate.
    cbn in Hrep. destruct (ok status); [|discriminate].
    destruct (nullish data') eqn:Hnull; [discriminate|].
    cbn in Hrep. injection Hrep as ->.
    cbn [snd chatLimits user token isAuthenticated localStorage].
    repeat apply conj; try reflexivity.
    + intros ->. split; [reflexivity | apply lookup_insert_eq].
    + intros ->. split; reflexivity.
  - intros Hnot Hrep. destruct reply as [|status [data|]]; [reflexivity| |].
    + cbn in Hrep. destruct (ok status).
      * destruct (nullish data); [reflexivity | discriminate].
      * destruct (Z.eqb_spec status 401) as [->|]; [|reflexivity].
        exfalso. exact (Hnot _ eq_refl).
    + destruct (ok status); [reflexivity|].
      destruct (Z.eqb_spec status 401) as [->|]; [|reflexivity].
      exfalso. exact (Hnot _ eq_refl).
Qed.

Lemma C8_fetchUserStatus_witness :
  truthy (token signedIn) = true
  /\ localStorage
       (Eff.exec (fetchUserStatus plainRuntime tenFree (Response 401 None))
                 signedIn) !! "auth_token" = None
  /\ reports (Response 200 (Some statusBody)) = Some statusBody
  /\ chatLimits
       (Eff.exec (fetchUserStatus plainRuntime tenFree
                    (Response 200 (Some statusBody))) signedIn)
     = reportedLimits plainRuntime statusBody.
Proof.
  split; [reflexivity|]. split.
  - apply (proj1 (proj2 (C8_fetchUserStatus_outcomes plainRuntime tenFree
                           (Response 401 None) signedIn eq_refl)) None eq_refl).
  - split; [reflexivity|].
    apply (proj1 (proj2 (proj2 (C8_fetchUserStatus_outcomes plainRuntime tenFree
                                  (Response 200 (Some statusBody)) signedIn
                                  eq_refl))) statusBody eq_refl).
Defined.

(** C8 as the specification words it fails: on an HTTP 500 response, which
    is not a 401, the hook replaces nothing.  The state stays as it was,
    with the old snapshot and not the one the body reports. *)
Lemma C8_counterexample :
  truthy (token signedIn) = true
  /\ 500 <> 401
  /\ Eff.exec (fetchUserStatus plainRuntime tenFree
                 (Response 500 (Some statusBody))) signedIn
     = signedIn
  /\ chatLimits
       (Eff.exec (fetchUserStatus plainRuntime tenFree
                    (Response 500 (Some statusBody))) signedIn)
     <> reportedLimits plainRuntime statusBody.
Proof.
  split; [reflexivity|]. split; [discriminate|]. split; [reflexivity|].
  vm_compute. discriminate.
Qed.

(** C10. [checkChatLimits] never logs the user out: on every reply it
    leaves the user, the token, the authentication flag and the browser
    storage untouched and lets no exception out.  On every failure (a
    response that is not ok, 401 included, or a request that does not
    complete) it returns false and leaves the whole state, [chatLimits]
    included, as it was.  Only an ok response changes [chatLimits]. *)
Theorem C10_checkChatLimits_never_logs_out (rt : Runtime) (LIMITS : Limits)
  (reply : FetchReply Value) (w : World) :
  let w' := Eff.exec (checkChatLimits rt LIMITS reply) w in
  (user w' = user w
   /\ token w' = token w
   /\ isAuthenticated w' = isAuthenticated w
   /\ isLoading w' = isLoading w
   /\ localStorage w' = localStorage w)
  /\ (exists b, Eff.result (checkChatLimits rt LIMITS reply) w = Eff.Returned b)
  /\ (check_failed reply = true ->
       Eff.result (checkChatLimits rt LIMITS reply) w = Eff.Returned false
       /\ w' = w)
  /\ (chatLimits w' <> chatLimits w ->
       exists status data,
         reply = Response status (Some data) /\ ok status = true).
Proof.
  cbv zeta. unfold Eff.exec, Eff.result, check_failed.
  rewrite checkChatLimits_run.
  destruct (truthy (token w)).
  2:{ cbn. repeat apply conj; eauto. intros H. contradiction H; reflexivity. }
  destruct reply as [|status [data|]].
  - cbn. repeat apply conj; eauto. intros H. contradiction H; reflexivity.
  - destruct (ok status) eqn:Hok; cbn [andb].
    + destruct (nullish data); cbn; repeat apply conj; eauto;
        try (intros H; discriminate H).
    + cbn. repeat apply conj; eauto. intros H. contradiction H; reflexivity.
  - cbn. repeat apply conj; eauto. intros H. contradiction H; reflexivity.
Qed.

Lemma C10_checkChatLimits_witness :
  check_failed (Response 401 (Some limitsBody)) = true
  /\ Eff.result (checkChatLimits plainRuntime tenFree
                   (Response 401 (Some limitsBody))) signedIn
     = Eff.Returned false
  /\ Eff.exec (checkChatLimits plainRuntime tenFree
                 (Response 401 (Some limitsBody))) signedIn
     = signedIn.
Proof.
  split; [reflexivity|].
  apply (proj1 (proj2 (proj2 (C10_checkChatLimits_never_logs_out plainRuntime
                                tenFree (Response 401 (Some limitsBody))
                                signedIn)))).
  reflexivity.
Defined.

End UseAuthFacts.

(* ===================================================================== *)
(** * The upgrade prompt                                                  *)
(* ===================================================================== *)

Module UpgradePromptFacts.

Import Js UpgradePrompt UpgradePromptSpec.

Lemma append_empty_r (s : string) : s +:+ "" = s.
Proof.
  induction s as [|c s IH]; [reflexivity|].
  rewrite JsFacts.append_cons, IH. reflexivity.
Qed.

(** The support message ends with the payment identifier. *)
Lemma supportMessage_has_payment_id (response : PaymentResponse) :
  includes (supportMessage response) (razorpay_payment_id response) = true.
Proof.
  apply JsFacts.includes_app. unfold supportMessage.
  eexists _, "". rewrite append_empty_r. reflexivity.
Qed.

(** The handler by cases: it ends in the success path exactly when the
    user record is there, the endpoint reports success and the refresh,
    if one is passed, resolves. *)
Lemma handler_run (p : Props) (response : PaymentResponse)
  (reply : FetchReply Value) (w : World) :
  Eff.exec (handler p response reply) w
  = if nullish (user p) then
      w ++ [ConsoleError "Verification error:"; Alert (supportMessage response)]
    else if verified reply then
      match onUpgradeSuccess p with
      | Some Resolves =>
        w ++ [verifyRequest p response; Alert successMessage;
              UpgradeSuccess; Close]
      | Some Rejects =>
        w ++ [verifyRequest p response; Alert successMessage; UpgradeSuccess;
              ConsoleError "Verification error:";
              Alert (supportMessage response)]
      | None =>
        w ++ [verifyRequest p response; Alert successMessage; Close]
      end
    else
      w ++ [verifyRequest p response; ConsoleError "Verification error:";
            Alert (supportMessage response)].
Proof.
  unfold Eff.exec, handler, Eff.try_catch, verifyRequest.
  destruct (nullish (user p)) eqn:Hnull.
  - cbn -[get]. rewrite (UseAuthFacts.get_none _ _ Hnull).
    cbn. rewrite <- ?app_assoc. reflexivity.
  - cbn -[get UseAuthSpec.field]. rewrite (UseAuthFacts.get_some _ _ Hnull).
    cbn -[get UseAuthSpec.field strict_eq_str].
    destruct reply as [|status [verifyData|]];
      cbn -[get UseAuthSpec.field strict_eq_str];
      rewrite <- ?app_assoc; try reflexivity.
    destruct (get verifyData "status") as [status'|];
      cbn -[UseAuthSpec.field strict_eq_str];
      rewrite <- ?app_assoc; try reflexivity.
    destruct (strict_eq_str status' "success");
      cbn -[UseAuthSpec.field]; rewrite <- ?app_assoc; try reflexivity.
    destruct (onUpgradeSuccess p) as [[|]|];
      cbn -[UseAuthSpec.field]; rewrite <- ?app_assoc; reflexivity.
Qed.

(** C7 (as amended). In the checkout success handler, when the
    verification endpoint does not report success (any body whose [status]
    is not 'success', an unreadable body, a failed request), the user is
    shown the support-contact alert, whose text contains the payment
    identifier, and neither the entitlement refresh [onUpgradeSuccess] nor
    [onClose] is called.  When it reports success for a signed-in user,
    the success alert is shown and the refresh passed by the caller is
    invoked; the flow is then closed if the refresh resolves, and also if
    no refresh was passed; if the refresh rejects, the support-contact
    alert is shown after it and the flow is not closed.  In each of the
    three cases the calls are exactly the ones listed. *)
Theorem C7_verification_outcomes (p : Props) (response : PaymentResponse)
  (reply : FetchReply Value) (w : World) :
  (verified reply = false ->
     In (Alert (supportMessage response)) (calls (handler p response reply) w)
     /\ includes (supportMessage response) (razorpay_payment_id response) = true
     /\ ~ In UpgradeSuccess (calls (handler p response reply) w)
     /\ ~ In Close (calls (handler p response reply) w))
  /\ (verified reply = true ->
      nullish (user p) = false ->
      (forall callback,
          onUpgradeSuccess p = Some callback ->
          In UpgradeSuccess (calls (handler p response reply) w))
      /\ (onUpgradeSuccess p = Some Resolves ->
          calls (handler p response reply) w
          = [verifyRequest p response; Alert successMessage;
             UpgradeSuccess; Close])
      /\ (onUpgradeSuccess p = None ->
          calls (handler p response reply) w
          = [verifyRequest p response; Alert successMessage; Close])
      /\ (onUpgradeSuccess p = Some Rejects ->
          calls (handler p response reply) w
          = [verifyRequest p response; Alert successMessage; UpgradeSuccess;
             ConsoleError "Verification error:";
             Alert (supportMessage response)])).
Proof.
  unfold calls. rewrite handler_run. split.
  - intros ->. split; [|split; [apply supportMessage_has_payment_id|]].
    + destruct (nullish (user p));
        rewrite ListFacts.skipn_own_length; cbn; auto.
    + destruct (nullish (user p));
        rewrite ListFacts.skipn_own_length; cbn;
        split; intuition discriminate.
  - intros -> ->. split; [|split; [|split]].
    + intros callback ->.
      destruct callback; rewrite ListFacts.skipn_own_length; cbn; auto.
    + intros ->. apply ListFacts.skipn_own_length.
    + intros ->. apply ListFacts.skipn_own_length.
    + intros ->. apply ListFacts.skipn_own_length.
Qed.

Lemma C7_verification_witness :
  (verified verifyRejected = false
   /\ In (Alert (supportMessage payment))
         (calls (handler annRefreshing payment verifyRejected) [])
   /\ ~ In UpgradeSuccess (calls (handler annRefreshing payment verifyRejected) []))
  /\ (verified verifyOk = true
      /\ nullish (user annRefreshing) = false
      /\ onUpgradeSuccess annRefreshing = Some Resolves
      /\ calls (handler annRefreshing payment verifyOk) []
         = [verifyRequest annRefreshing payment; Alert successMessage;
            UpgradeSuccess; Close]).
Proof.
  split.
  - split; [reflexivity|].
    pose proof (proj1 (C7_verification_outcomes annRefreshing payment
                         verifyRejected []) eq_refl) as H.
    split; apply H.
  - split; [reflexivity|]. split; [reflexivity|]. split; [reflexivity|].
    apply (proj1 (proj2 (proj2 (C7_verification_outcomes annRefreshing payment
                                  verifyOk []) eq_refl eq_refl))).
    reflexivity.
Defined.

(** C7 as the specification words it fails: the endpoint reports success
    and the refresh passed by the caller is invoked but rejects; the flow
    is not closed, and the last call is the support-contact alert. *)
Lemma C7_counterexample :
  verified verifyOk = true
  /\ onUpgradeSuccess annRefreshFailing = Some Rejects
  /\ calls (handler annRefreshFailing payment verifyOk) []
     = [verifyRequest annRefreshFailing payment; Alert successMessage;
        UpgradeSuccess; ConsoleError "Verification error:";
        Alert (supportMessage payment)]
  /\ In UpgradeSuccess (calls (handler annRefreshFailing payment verifyOk) [])
  /\ ~ In Close (calls (handler annRefreshFailing payment verifyOk) []).
Proof.
  split; [reflexivity|]. split; [reflexivity|]. split; [reflexivity|].
  split.
  - vm_compute. do 2 right. left. reflexivity.
  - vm_compute. intuition discriminate.
Qed.

End UpgradePromptFacts.

(* ===================================================================== *)
(** * The session hook: signing in and out, storage, start-up             *)
(* ===================================================================== *)

Module UseAuthSession.

Import Js UseAuth UseAuthSpec SessionSpec UseAuthStartup UseAuthFacts.

Lemma truthy_not_nullish (v : Value) : truthy v = true -> nullish v = false.
Proof. destruct v; cbn; congruence. Qed.

Lemma delete_session_entries (ls : gmap string string) (a b : string) :
  delete "user_info" (delete "auth_token"
     (<["user_info" := a]> (<["auth_token" := b]> ls)))
  = delete "user_info" (delete "auth_token" ls).
Proof.
  rewrite (delete_insert_ne _ "auth_token" "user_info") by discriminate.
  rewrite delete_insert_eq, delete_insert_eq. reflexivity.
Qed.

(** [a || b || 0] is never a missing value. *)
Lemma or_or_zero (a b : Value) :
  truthy (or (or a b) (num 0)) = true \/ or (or a b) (num 0) = num 0.
Proof.
  unfold or. destruct (truthy a) eqn:Ea; cbv iota.
  - rewrite Ea. left. exact Ea.
  - destruct (truthy b) eqn:Eb; [left; exact Eb | right; reflexivity].
Qed.

(** [handleGoogleLogin] by cases on the reply. *)
Lemma handleGoogleLogin_run (rt : Runtime) (LIMITS : Limits)
  (reply : FetchReply Value) (w : World) :
  handleGoogleLogin rt LIMITS reply w
  = (Eff.Returned tt,
     match signs_in reply with
     | Some data => signedInWith rt data w
     | None => with_isLoading false (Eff.exec (logout LIMITS) w)
     end).
Proof.
  unfold handleGoogleLogin, Eff.bind at 1, setIsLoading, Eff.modify.
  unfold Eff.finally, Eff.try_catch, signs_in, carried.
  destruct reply as [|status body]; [reflexivity|].
  cbn [Eff.await_fetch Eff.bind Eff.ret fst snd].
  destruct (ok status); [|destruct body; reflexivity]. cbn [negb andb].
  destruct body as [data|]; [|reflexivity].
  destruct (nullish data) eqn:Hnull.
  { cbn -[get]. rewrite (get_none data _ Hnull). reflexivity. }
  cbn -[get get_opt field allows or].
  rewrite !(get_some data _ Hnull).
  cbn -[get get_opt field allows or].
  unfold get_opt.
  destruct (nullish (field data "user")) eqn:Huser.
  - cbn -[get field allows or].
    rewrite (get_none _ "email" Huser). cbn -[field allows or].
    rewrite delete_session_entries. reflexivity.
  - rewrite !(get_some _ _ Huser). cbn -[field allows or]. reflexivity.
Qed.

(** X1. [logout] is idempotent: logging out twice leaves exactly the
    state that logging out once leaves. *)
Theorem X1_logout_idempotent (LIMITS : Limits) (w : World) :
  Eff.exec (logout LIMITS) (Eff.exec (logout LIMITS) w)
  = Eff.exec (logout LIMITS) w.
Proof.
  unfold Eff.exec. rewrite !logout_run. cbn. f_equal.
  apply map_eq. intros k. rewrite !lookup_delete.
  repeat case_decide; reflexivity.
Qed.

(** X2. [logout] removes the two session entries from browser storage and
    nothing else: every other key keeps the value it had. *)
Theorem X2_logout_clears_only_the_session
  (LIMITS : Limits) (w : World) (k : string) :
  localStorage (Eff.exec (logout LIMITS) w) !! k
  = if decide (k = "auth_token" \/ k = "user_info") then None
    else localStorage w !! k.
Proof.
  unfold Eff.exec. rewrite logout_run. cbn.
  rewrite !lookup_delete. repeat case_decide; intuition congruence.
Qed.

(** X3. Without a token in memory (in particular after [logout]) the hook
    is inert: [fetchUserStatus] and [checkChatLimits] return at once
    whatever the backend would answer, the latter with false, the state is
    untouched, and [getAuthHeaders] returns no header at all. *)
Theorem X3_signed_out_is_inert (rt : Runtime) (LIMITS : Limits)
  (reply : FetchReply Value) (w : World) :
  truthy (token w) = false ->
  fetchUserStatus rt LIMITS reply w = (Eff.Returned tt, w)
  /\ checkChatLimits rt LIMITS reply w = (Eff.Returned false, w)
  /\ getAuthHeaders rt w = ∅.
Proof.
  intros Htok. repeat apply conj.
  - unfold fetchUserStatus, Eff.bind, Eff.gets. rewrite Htok. reflexivity.
  - rewrite checkChatLimits_run, Htok. reflexivity.
  - unfold getAuthHeaders. rewrite Htok. reflexivity.
Qed.

Lemma X3_signed_out_witness :
  truthy (token (Eff.exec (logout tenFree) signedIn)) = false
  /\ checkChatLimits plainRuntime tenFree (Response 200 (Some limitsBody))
       (Eff.exec (logout tenFree) signedIn)
     = (Eff.Returned false, Eff.exec (logout tenFree) signedIn).
Proof.
  split; [reflexivity|].
  apply (X3_signed_out_is_inert plainRuntime tenFree
           (Response 200 (Some limitsBody))
           (Eff.exec (logout tenFree) signedIn) eq_refl).
Defined.

(** X4. A login that does not go through signs the user out.  When the
    request fails, the response is not ok, the body is unreadable or
    [null], or the body has no user record, [handleGoogleLogin] lets no
    exception out and ends in the state [logout] leaves, with the loading
    flag off: token and profile cleared, the default snapshot, and neither
    session entry in storage (also when the entries had already been
    written before the missing user record was noticed). *)
Theorem X4_failed_login_signs_out (rt : Runtime) (LIMITS : Limits)
  (reply : FetchReply Value) (w : World) :
  signs_in reply = None ->
  let w' := Eff.exec (handleGoogleLogin rt LIMITS reply) w in
  Eff.result (handleGoogleLogin rt LIMITS reply) w = Eff.Returned tt
  /\ w' = with_isLoading false (Eff.exec (logout LIMITS) w)
  /\ token w' = Null
  /\ user w' = Null
  /\ isAuthenticated w' = false
  /\ isLoading w' = false
  /\ chatLimits w' = defaultLimits LIMITS
  /\ localStorage w' !! "auth_token" = None
  /\ localStorage w' !! "user_info" = None.
Proof.
  intros Hfail. cbv zeta. unfold Eff.exec, Eff.result.
  rewrite handleGoogleLogin_run, Hfail. cbn.
  repeat apply conj; try reflexivity.
  - rewrite lookup_delete_ne by discriminate. apply lookup_delete_eq.
  - apply lookup_delete_eq.
Qed.

Lemma X4_failed_login_witness :
  signs_in (Response 200 (Some limitsBody)) = None
  /\ token (Eff.exec (handleGoogleLogin plainRuntime tenFree
                        (Response 200 (Some limitsBody))) signedIn) = Null
  /\ localStorage (Eff.exec (handleGoogleLogin plainRuntime tenFree
                               (Response 200 (Some limitsBody))) signedIn)
       !! "auth_token" = None.
Proof.
  split; [reflexivity|].
  pose proof (X4_failed_login_signs_out plainRuntime tenFree
                (Response 200 (Some limitsBody)) signedIn eq_refl) as H.
  split; apply H.
Defined.



(** X6. A successful login mirrors the reply: the token is the reply's
    [access_token], the profile its [user], the snapshot holds its
    [remaining_chats], both session entries are stored, the loading flag
    is off and [getAuthHeaders] carries the token as a bearer credential
    when there is one.  The [used] count is the user record's
    [chat_count], else the body's [chat_count], else 0, a count of 0 in
    the user record falling through to the body's; so [used] is never a
    missing value. *)
Theorem X6_login_mirrors_the_reply (rt : Runtime) (LIMITS : Limits)
  (reply : FetchReply Value) (data : Value) (w : World) :
  signs_in reply = Some data ->
  let w' := Eff.exec (handleGoogleLogin rt LIMITS reply) w in
  token w' = field data "access_token"
  /\ user w' = field data "user"
  /\ isAuthenticated w' = true
  /\ isLoading w' = false
  /\ remaining (chatLimits w') = field data "remaining_chats"
  /\ localStorage w' !! "auth_token"
     = Some (ToString rt (field data "access_token"))
  /\ localStorage w' !! "user_info"
     = Some (ToString rt (JSON_stringify rt (field data "user")))
  /\ (truthy (field data "access_token") = true ->
      getAuthHeaders rt w' !! "Authorization"
      = Some ("Bearer " +:+ ToString rt (field data "access_token")))
  /\ (field (field data "user") "chat_count" = num 0 ->
      used (chatLimits w') = or (field data "chat_count") (num 0))
  /\ (truthy (used (chatLimits w')) = true \/ used (chatLimits w') = num 0)
  /\ canChat (chatLimits w') = allows rt (field data "remaining_chats")
  /\ (truthy (field (field data "user") "chat_count") = true ->
      used (chatLimits w') = field (field data "user") "chat_count")
  /\ (truthy (field (field data "user") "chat_count") = false ->
      truthy (field data "chat_count") = true ->
      used (chatLimits w') = field data "chat_count")
  /\ (truthy (field (field data "user") "chat_count") = false ->
      truthy (field data "chat_count") = false ->
      used (chatLimits w') = num 0).
Proof.
  intros Hin. cbv zeta. unfold Eff.exec.
  rewrite handleGoogleLogin_run, Hin. unfold signedInWith. cbn [snd].
  cbn [token user isAuthenticated isLoading chatLimits remaining used
       canChat localStorage].
  repeat apply conj; try reflexivity.
  - rewrite lookup_insert_ne by discriminate. apply lookup_insert_eq.
  - apply lookup_insert_eq.
  - intros Htok. unfold getAuthHeaders. cbn [token]. rewrite Htok. cbn [negb].
    apply lookup_insert_eq.
  - intros ->. reflexivity.
  - apply or_or_zero.
  - intros Hu. unfold or. rewrite Hu. cbv iota. rewrite Hu. reflexivity.
  - intros Hu Hd. unfold or. rewrite Hu. cbv iota. rewrite Hd. reflexivity.
  - intros Hu Hd. unfold or. rewrite Hu. cbv iota. rewrite Hd. reflexivity.
Qed.

Lemma X6_login_witness :
  signs_in (Response 200 (Some Samples.loginBody)) = Some Samples.loginBody
  /\ token (Eff.exec (handleGoogleLogin plainRuntime tenFree
                        (Response 200 (Some Samples.loginBody)))
                     Samples.firstVisit)
     = Str "tok"
  /\ signs_in (Response 200 (Some Samples.loginBodyCounted))
     = Some Samples.loginBodyCounted
  /\ truthy (field (field Samples.loginBodyCounted "user") "chat_count") = true
  /\ used (chatLimits
             (Eff.exec (handleGoogleLogin plainRuntime tenFree
                          (Response 200 (Some Samples.loginBodyCounted)))
                       Samples.firstVisit))
     = num 4.
Proof.
  split; [reflexivity|]. split.
  { apply (X6_login_mirrors_the_reply plainRuntime tenFree
             (Response 200 (Some Samples.loginBody)) Samples.loginBody
             Samples.firstVisit eq_refl). }
  split; [reflexivity|]. split; [reflexivity|].
  pose proof (X6_login_mirrors_the_reply plainRuntime tenFree
                (Response 200 (Some Samples.loginBodyCounted))
                Samples.loginBodyCounted Samples.firstVisit eq_refl)
    as (_ & _ & _ & _ & _ & _ & _ & _ & _ & _ & _ & Hused & _).
  exact (Hused eq_refl).
Defined.

(** X7. [fetchUserStatus] never stores a missing limit.  On a reply that
    carries a body, the stored [remaining] and [used] are never
    [undefined] or [null]: a body with neither [remaining_chats] nor
    [remaining] is read as unlimited ([remaining] -1, [canChat] true), and
    a body with neither [chat_count] nor [used] as 0 chats used. *)
Theorem X7_status_defaults (rt : Runtime) (LIMITS : Limits)
  (reply : FetchReply Value) (data : Value) (w : World) :
  truthy (token w) = true ->
  carried reply = Some data ->
  let w' := Eff.exec (fetchUserStatus rt LIMITS reply) w in
  nullish (remaining (chatLimits w')) = false
  /\ nullish (used (chatLimits w')) = false
  /\ (nullish (field data "remaining_chats") = true ->
      nullish (field data "remaining") = true ->
      remaining (chatLimits w') = num (-1) /\ canChat (chatLimits w') = true)
  /\ (nullish (field data "chat_count") = true ->
      nullish (field data "used") = true ->
      used (chatLimits w') = num 0).
Proof.
  intros Htok Hcar. cbv zeta. unfold Eff.exec.
  rewrite (fetchUserStatus_run rt LIMITS reply w Htok).
  destruct reply as [|status [data'|]]; try discriminate.
  cbn in Hcar. destruct (ok status); [|discriminate].
  destruct (nullish data'); [discriminate|].
  cbn in Hcar. injection Hcar as ->.
  cbn [snd chatLimits]. unfold reportedLimits, coalesce.
  cbn [remaining used canChat].
  repeat apply conj.
  - destruct (nullish (field data "remaining_chats")) eqn:E1;
      [destruct (nullish (field data "remaining")) eqn:E2|];
      rewrite ?E1, ?E2; try reflexivity; assumption.
  - destruct (nullish (field data "chat_count")) eqn:E1;
      [destruct (nullish (field data "used")) eqn:E2|];
      rewrite ?E1, ?E2; try reflexivity; assumption.
  - intros -> ->. cbn. split; reflexivity.
  - intros -> ->. reflexivity.
Qed.

Lemma X7_status_defaults_witness :
  truthy (token signedIn) = true
  /\ carried (Response 200 (Some (Object [("user", ann)])))
     = Some (Object [("user", ann)])
  /\ remaining (chatLimits
        (Eff.exec (fetchUserStatus plainRuntime tenFree
                     (Response 200 (Some (Object [("user", ann)])))) signedIn))
     = num (-1).
Proof.
  split; [reflexivity|]. split; [reflexivity|].
  apply (proj1 (proj2 (proj2 (X7_status_defaults plainRuntime tenFree
                   (Response 200 (Some (Object [("user", ann)])))
                   (Object [("user", ann)]) signedIn eq_refl eq_refl)))
           eq_refl eq_refl).
Defined.

(** X8. The answer of [checkChatLimits] is the [canChat] it stores.  It
    lets no exception out; whenever it answers true the stored snapshot
    allows chatting; and on a reply that carries a body its answer is
    exactly the stored [canChat]. *)
Theorem X8_check_answer_is_stored (rt : Runtime) (LIMITS : Limits)
  (reply : FetchReply Value) (w : World) :
  let w' := Eff.exec (checkChatLimits rt LIMITS reply) w in
  exists b,
    Eff.result (checkChatLimits rt LIMITS reply) w = Eff.Returned b
    /\ (b = true -> canChat (chatLimits w') = true)
    /\ (truthy (token w) = true ->
        (exists data, carried reply = Some data) ->
        b = canChat (chatLimits w')).
Proof.
  cbv zeta. unfold Eff.exec, Eff.result, carried. rewrite checkChatLimits_run.
  destruct (truthy (token w)).
  2:{ exists false. repeat split; discriminate. }
  destruct reply as [|status [data|]].
  - exists false. repeat split; try discriminate. intros _ [d Hd]. discriminate.
  - destruct (ok status && negb (nullish data)).
    + eexists. cbn. repeat split; auto.
    + exists false. repeat split; try discriminate. intros _ [d Hd]. discriminate.
  - exists false. repeat split; try discriminate. intros _ [d Hd]. discriminate.
Qed.

Lemma X8_check_answer_witness :
  truthy (token signedIn) = true
  /\ (exists data, carried (Response 200 (Some limitsBody)) = Some data)
  /\ exists b,
       Eff.result (checkChatLimits plainRuntime tenFree
                     (Response 200 (Some limitsBody))) signedIn
       = Eff.Returned b
       /\ b = canChat (chatLimits
                (Eff.exec (checkChatLimits plainRuntime tenFree
                             (Response 200 (Some limitsBody))) signedIn)).
Proof.
  split; [reflexivity|].
  assert (Hc : exists data, carried (Response 200 (Some limitsBody)) = Some data)
    by (exists limitsBody; reflexivity).
  split; [exact Hc|].
  destruct (X8_check_answer_is_stored plainRuntime tenFree
              (Response 200 (Some limitsBody)) signedIn) as (b & Hb & _ & Heq).
  exists b. split; [exact Hb | exact (Heq eq_refl Hc)].
Defined.

(** X9. A chat-limit body without [remaining_chats] locks the user out:
    [checkChatLimits] stores [remaining] undefined, [used] NaN and
    [canChat] false, and answers false. *)
Theorem X9_check_without_remaining (rt : Runtime) (LIMITS : Limits)
  (reply : FetchReply Value) (data : Value) (w : World) :
  truthy (token w) = true ->
  carried reply = Some data ->
  field data "remaining_chats" = Undefined ->
  chatLimits (Eff.exec (checkChatLimits rt LIMITS reply) w)
  = {| remaining := Undefined; used := Number NaN; canChat := false |}
  /\ Eff.result (checkChatLimits rt LIMITS reply) w = Eff.Returned false.
Proof.
  intros Htok Hcar Hmiss. unfold Eff.exec, Eff.result.
  rewrite checkChatLimits_run, Htok.
  destruct reply as [|status [data'|]]; try discriminate.
  cbn in Hcar. destruct (ok status && negb (nullish data')); [|discriminate].
  injection Hcar as ->. cbv zeta. rewrite Hmiss. split; reflexivity.
Qed.

Lemma X9_check_without_remaining_witness :
  truthy (token signedIn) = true
  /\ carried (Response 200 (Some (Object [("chat_count", num 4)])))
     = Some (Object [("chat_count", num 4)])
  /\ field (Object [("chat_count", num 4)]) "remaining_chats" = Undefined
  /\ Eff.result (checkChatLimits plainRuntime tenFree
                   (Response 200 (Some (Object [("chat_count", num 4)]))))
                signedIn
     = Eff.Returned false.
Proof.
  split; [reflexivity|]. split; [reflexivity|]. split; [reflexivity|].
  apply (X9_check_without_remaining plainRuntime tenFree
           (Response 200 (Some (Object [("chat_count", num 4)])))
           (Object [("chat_count", num 4)]) signedIn eq_refl eq_refl eq_refl).
Defined.

(** X10. The last writer of the snapshot wins.  A status reply that
    carries a body overwrites a local [updateChatLimits] made before it
    arrives, whatever the update was; an [updateChatLimits] made after the
    reply overwrites what the reply reported. *)
Theorem X10_last_write_wins (rt : Runtime) (LIMITS : Limits)
  (reply : FetchReply Value) (data newRemaining newUsed : Value) (w : World) :
  truthy (token w) = true ->
  carried reply = Some data ->
  chatLimits (Eff.exec (Eff.bind (updateChatLimits rt newRemaining newUsed)
                          (fun _ => fetchUserStatus rt LIMITS reply)) w)
  = reportedLimits rt data
  /\ chatLimits (Eff.exec (Eff.bind (fetchUserStatus rt LIMITS reply)
                             (fun _ => updateChatLimits rt newRemaining newUsed)) w)
     = {| remaining := newRemaining; used := newUsed;
          canChat := allows rt newRemaining |}.
Proof.
  intros Htok Hcar.
  destruct reply as [|status [data'|]]; try discriminate.
  cbn in Hcar. destruct (ok status) eqn:Hok; [|discriminate].
  destruct (nullish data') eqn:Hnull; [discriminate|].
  cbn in Hcar. injection Hcar as ->.
  split.
  - unfold Eff.exec, Eff.bind at 1.
    cbn [updateChatLimits setChatLimits Eff.modify].
    rewrite fetchUserStatus_run by exact Htok.
    rewrite Hok, Hnull. reflexivity.
  - unfold Eff.exec, Eff.bind at 1.
    rewrite (fetchUserStatus_run rt LIMITS _ w Htok), Hok, Hnull. reflexivity.
Qed.

Lemma X10_last_write_witness :
  truthy (token signedIn) = true
  /\ carried (Response 200 (Some statusBody)) = Some statusBody
  /\ chatLimits (Eff.exec (Eff.bind (updateChatLimits plainRuntime (num 2) (num 8))
                             (fun _ => fetchUserStatus plainRuntime tenFree
                                         (Response 200 (Some statusBody))))
                          signedIn)
     = reportedLimits plainRuntime statusBody.
Proof.
  split; [reflexivity|]. split; [reflexivity|].
  apply (X10_last_write_wins plainRuntime tenFree
           (Response 200 (Some statusBody)) statusBody (num 2) (num 8)
           signedIn eq_refl eq_refl).
Defined.

(** X11. [getAuthHeaders] sends a credential exactly when a token is held:
    the Authorization header is present if and only if the token is
    truthy, and then it is "Bearer " followed by the token; the headers of
    a POST built on top always carry the JSON content type and the same
    Authorization header. *)
Theorem X11_auth_headers (rt : Runtime) (w : World) :
  (is_Some (getAuthHeaders rt w !! "Authorization") <-> truthy (token w) = true)
  /\ (truthy (token w) = true ->
      getAuthHeaders rt w !! "Authorization"
      = Some ("Bearer " +:+ ToString rt (token w))
      /\ getAuthHeaders rt w !! "Content-Type" = Some "application/json")
  /\ postHeaders rt w !! "Content-Type" = Some "application/json"
  /\ postHeaders rt w !! "Authorization" = getAuthHeaders rt w !! "Authorization".
Proof.
  unfold postHeaders, getAuthHeaders.
  destruct (truthy (token w)); cbn [negb]; (split; [|split; [|split]]).
  - rewrite lookup_insert_eq. split; [reflexivity | eauto].
  - intros _. split; [apply lookup_insert_eq|].
    rewrite lookup_insert_ne by discriminate. apply lookup_insert_eq.
  - apply lookup_insert_eq.
  - rewrite lookup_insert_ne by discriminate. reflexivity.
  - rewrite lookup_empty. split; [intros [x Hx]; discriminate | discriminate].
  - discriminate.
  - apply lookup_insert_eq.
  - rewrite lookup_insert_ne by discriminate. reflexivity.
Qed.

Lemma X11_auth_headers_witness :
  truthy (token signedIn) = true
  /\ getAuthHeaders plainRuntime signedIn !! "Authorization" = Some "Bearer tok".
Proof.
  split; [reflexivity|].
  apply (proj1 (proj2 (X11_auth_headers plainRuntime signedIn))). reflexivity.
Defined.

Lemma truthy_Str (t : string) : t <> "" -> truthy (Str t) = true.
Proof.
  intros Ht. cbn. destruct (String.eqb_spec t ""); [contradiction | reflexivity].
Qed.

(** The start-up effect when both entries are stored and the profile
    parses: the session is put back and the status is fetched. *)
Lemma mountEffect_restores (rt : Runtime) (LIMITS : Limits)
  (JSON_parse : string -> option Value) (reply : FetchReply Value)
  (ls : gmap string string) (t u : string) (profile : Value) :
  ls !! "auth_token" = Some t -> t <> "" ->
  ls !! "user_info" = Some u -> u <> "" ->
  JSON_parse u = Some profile ->
  mountEffect rt LIMITS JSON_parse reply (init LIMITS ls)
  = fetchUserStatus rt LIMITS reply
      {| user := profile; token := Str t; isAuthenticated := true;
         isLoading := false; chatLimits := defaultLimits LIMITS;
         localStorage := ls |}.
Proof.
  intros Ht Htne Hu Hune Hparse.
  unfold mountEffect, Eff.bind at 1, Eff.gets. cbn [init localStorage].
  unfold getItem. rewrite Ht, Hu.
  rewrite (truthy_Str t Htne), (truthy_Str u Hune). cbn [andb].
  unfold Eff.bind at 1, Eff.try_catch. cbn -[fetchUserStatus].
  rewrite Hparse. cbn -[fetchUserStatus]. reflexivity.
Qed.

(** X12. A reload restores the stored session.  When both session entries
    are stored, non-empty, and the stored profile parses, the start-up
    effect run on the freshly initialised hook puts back the token and
    the authentication flag on every status reply but a 401; if the
    status reply carries no body the parsed profile is in memory, storage
    is untouched and the snapshot is still the default one (the snapshot
    is not persisted), and if it does the snapshot is the reported one. *)
Theorem X12_reload_restores_session (rt : Runtime) (LIMITS : Limits)
  (JSON_parse : string -> option Value) (reply : FetchReply Value)
  (ls : gmap string string) (t u : string) (profile : Value) :
  ls !! "auth_token" = Some t -> t <> "" ->
  ls !! "user_info" = Some u -> u <> "" ->
  JSON_parse u = Some profile ->
  (forall body, reply <> Response 401 body) ->
  let w' := Eff.exec (mountEffect rt LIMITS JSON_parse reply) (init LIMITS ls) in
  token w' = Str t
  /\ isAuthenticated w' = true
  /\ localStorage w' !! "auth_token" = Some t
  /\ (carried reply = None ->
      user w' = profile
      /\ chatLimits w' = defaultLimits LIMITS
      /\ localStorage w' = ls)
  /\ (forall data, carried reply = Some data ->
        chatLimits w' = reportedLimits rt data).
Proof.
  intros Ht Htne Hu Hune Hparse Hnot. cbv zeta. unfold Eff.exec.
  rewrite (mountEffect_restores rt LIMITS JSON_parse reply ls t u profile)
    by assumption.
  rewrite fetchUserStatus_run by (cbn [token]; apply truthy_Str, Htne).
  destruct reply as [|status [data|]]; cbn [carried].
  - cbn. repeat apply conj; auto. discriminate.
  - destruct (ok status) eqn:Hok; cbn [andb].
    + destruct (nullish data) eqn:Hnull; cbn [negb snd].
      * cbn. repeat apply conj; auto. discriminate.
      * cbn [token isAuthenticated localStorage chatLimits user].
        repeat apply conj; try reflexivity.
        -- destruct (truthy (field data "user")); [|exact Ht].
           rewrite lookup_insert_ne by discriminate. exact Ht.
        -- discriminate.
        -- intros d Hd. injection Hd as <-. reflexivity.
    + destruct (Z.eqb_spec status 401) as [->|_].
      { exfalso. exact (Hnot _ eq_refl). }
      cbn. repeat apply conj; auto. discriminate.
  - destruct (ok status).
    + cbn. repeat apply conj; auto. discriminate.
    + destruct (Z.eqb_spec status 401) as [->|_].
      { exfalso. exact (Hnot _ eq_refl). }
      cbn. repeat apply conj; auto. discriminate.
Qed.

Lemma X12_reload_witness :
  localStorage signedIn !! "auth_token" = Some "tok"
  /\ localStorage signedIn !! "user_info" = Some "ann"
  /\ token (Eff.exec (mountEffect plainRuntime tenFree (fun _ => Some ann)
                        NetworkError)
                     (init tenFree (localStorage signedIn)))
     = Str "tok".
Proof.
  split; [reflexivity|]. split; [reflexivity|].
  apply (X12_reload_restores_session plainRuntime tenFree (fun _ => Some ann)
           NetworkError (localStorage signedIn) "tok" "ann" ann);
    try reflexivity; discriminate.
Defined.

(** X13. A stored profile that does not parse ends the session at
    start-up: with both entries stored and non-empty but a profile that
    [JSON.parse] rejects, the start-up effect leaves exactly what
    [logout] leaves (no token, no profile, not authenticated, both
    entries removed from storage) and never asks the backend: the result
    is the same for every status reply. *)
Theorem X13_corrupt_profile_signs_out (rt : Runtime) (LIMITS : Limits)
  (JSON_parse : string -> option Value) (reply : FetchReply Value)
  (ls : gmap string string) (t u : string) :
  ls !! "auth_token" = Some t -> t <> "" ->
  ls !! "user_info" = Some u -> u <> "" ->
  JSON_parse u = None ->
  let w' := Eff.exec (mountEffect rt LIMITS JSON_parse reply) (init LIMITS ls) in
  w' = Eff.exec (logout LIMITS) (init LIMITS ls)
  /\ token w' = Null
  /\ isAuthenticated w' = false
  /\ localStorage w' !! "auth_token" = None
  /\ localStorage w' !! "user_info" = None.
Proof.
  intros Ht Htne Hu Hune Hparse. cbv zeta.
  assert (Hrun : Eff.exec (mountEffect rt LIMITS JSON_parse reply) (init LIMITS ls)
                 = Eff.exec (logout LIMITS) (init LIMITS ls)).
  { unfold Eff.exec, mountEffect, Eff.bind at 1, Eff.gets.
    cbn [init localStorage]. unfold getItem. rewrite Ht, Hu.
    rewrite (truthy_Str t Htne), (truthy_Str u Hune). cbn [andb].
    unfold Eff.bind at 1, Eff.try_catch. cbn -[fetchUserStatus].
    rewrite Hparse. reflexivity. }
  rewrite Hrun. unfold Eff.exec. rewrite logout_run. cbn.
  repeat apply conj; try reflexivity.
  - rewrite lookup_delete_ne by discriminate. apply lookup_delete_eq.
  - apply lookup_delete_eq.
Qed.

Lemma X13_corrupt_profile_witness :
  localStorage signedIn !! "auth_token" = Some "tok"
  /\ localStorage signedIn !! "user_info" = Some "ann"
  /\ token (Eff.exec (mountEffect plainRuntime tenFree (fun _ => None)
                        (Response 200 (Some statusBody)))
                     (init tenFree (localStorage signedIn)))
     = Null.
Proof.
  split; [reflexivity|]. split; [reflexivity|].
  apply (X13_corrupt_profile_signs_out plainRuntime tenFree (fun _ => None)
           (Response 200 (Some statusBody)) (localStorage signedIn) "tok" "ann");
    try reflexivity; discriminate.
Defined.

(** X14. A token stored without a profile is kept but not trusted.  When
    the token entry is stored and non-empty and the profile entry is
    absent, the start-up effect changes nothing and asks the backend
    nothing; the hook stays unauthenticated with no profile, yet the token
    read from storage is in memory and [getAuthHeaders] sends it. *)
Theorem X14_token_without_profile (rt : Runtime) (LIMITS : Limits)
  (JSON_parse : string -> option Value) (reply : FetchReply Value)
  (ls : gmap string string) (t : string) :
  ls !! "auth_token" = Some t -> t <> "" ->
  ls !! "user_info" = None ->
  let w' := Eff.exec (mountEffect rt LIMITS JSON_parse reply) (init LIMITS ls) in
  w' = init LIMITS ls
  /\ isAuthenticated w' = false
  /\ user w' = Null
  /\ token w' = Str t
  /\ getAuthHeaders rt w' !! "Authorization"
     = Some ("Bearer " +:+ ToString rt (Str t)).
Proof.
  intros Ht Htne Hu. cbv zeta.
  assert (Hrun : Eff.exec (mountEffect rt LIMITS JSON_parse reply) (init LIMITS ls)
                 = init LIMITS ls).
  { unfold Eff.exec, mountEffect, Eff.bind at 1, Eff.gets.
    cbn [init localStorage]. unfold getItem. rewrite Ht, Hu.
    rewrite (truthy_Str t Htne). reflexivity. }
  rewrite Hrun. unfold init, getAuthHeaders, getItem. cbn [token].
  rewrite Ht, (truthy_Str t Htne). cbn [negb].
  repeat apply conj; reflexivity.
Qed.

Lemma X14_token_without_profile_witness :
  (<["auth_token" := "tok"]> ∅ : gmap string string) !! "auth_token" = Some "tok"
  /\ (<["auth_token" := "tok"]> ∅ : gmap string string) !! "user_info" = None
  /\ isAuthenticated
       (Eff.exec (mountEffect plainRuntime tenFree (fun _ => Some ann)
                    (Response 200 (Some statusBody)))
                 (init tenFree (<["auth_token" := "tok"]> ∅)))
     = false.
Proof.
  split; [reflexivity|]. split; [reflexivity|].
  apply (X14_token_without_profile plainRuntime tenFree (fun _ => Some ann)
           (Response 200 (Some statusBody)) (<["auth_token" := "tok"]> ∅) "tok");
    try reflexivity; discriminate.
Defined.

(** X15. A login survives a reload.  If the host reads back what it
    stores (the token is a non-empty string stored as itself, and the
    stored profile is non-empty and parses to the profile), then after a
    successful login, re-initialising the hook on the storage the login
    left and running the start-up effect gives back the same token,
    profile, authentication flag and storage; while the status request
    brings no body the snapshot is the default one, not the one the login
    reply carried. *)
Theorem X15_login_survives_reload (rt : Runtime) (LIMITS : Limits)
  (JSON_parse : string -> option Value)
  (reply statusReply : FetchReply Value) (data : Value) (tok : string)
  (w : World) :
  signs_in reply = Some data ->
  field data "access_token" = Str tok -> tok <> "" ->
  ToString rt (Str tok) = tok ->
  ToString rt (JSON_stringify rt (field data "user")) <> "" ->
  JSON_parse (ToString rt (JSON_stringify rt (field data "user")))
  = Some (field data "user") ->
  carried statusReply = None ->
  (forall body, statusReply <> Response 401 body) ->
  let w1 := Eff.exec (handleGoogleLogin rt LIMITS reply) w in
  let w2 := Eff.exec (mountEffect rt LIMITS JSON_parse statusReply)
                     (init LIMITS (localStorage w1)) in
  token w2 = token w1
  /\ user w2 = user w1
  /\ isAuthenticated w2 = isAuthenticated w1
  /\ localStorage w2 = localStorage w1
  /\ chatLimits w2 = defaultLimits LIMITS.
Proof.
  intros Hin Htok Htne Hstr Hune Hparse Hcar Hnot. cbv zeta.
  assert (Hw1 : Eff.exec (handleGoogleLogin rt LIMITS reply) w
                = signedInWith rt data w).
  { unfold Eff.exec. rewrite handleGoogleLogin_run, Hin. reflexivity. }
  rewrite Hw1. unfold signedInWith.
  cbn [localStorage token user isAuthenticated].
  rewrite Htok, Hstr.
  set (stored := ToString rt (JSON_stringify rt (field data "user"))) in *.
  set (ls := <["user_info" := stored]> (<["auth_token" := tok]> (localStorage w))).
  assert (Hat : ls !! "auth_token" = Some tok).
  { unfold ls. rewrite lookup_insert_ne by discriminate. apply lookup_insert_eq. }
  assert (Hui : ls !! "user_info" = Some stored) by apply lookup_insert_eq.
  unfold Eff.exec.
  rewrite (mountEffect_restores rt LIMITS JSON_parse statusReply ls tok stored
             (field data "user") Hat Htne Hui Hune Hparse).
  rewrite fetchUserStatus_run by (cbn [token]; apply truthy_Str, Htne).
  destruct statusReply as [|status [body|]]; cbn in Hcar.
  - cbn. repeat apply conj; reflexivity.
  - destruct (ok status) eqn:Hok; cbn in Hcar.
    + destruct (nullish body); [|discriminate]. cbn. repeat apply conj; reflexivity.
    + destruct (Z.eqb_spec status 401) as [->|_].
      { exfalso. exact (Hnot _ eq_refl). }
      cbn. repeat apply conj; reflexivity.
  - destruct (ok status).
    + cbn. repeat apply conj; reflexivity.
    + destruct (Z.eqb_spec status 401) as [->|_].
      { exfalso. exact (Hnot _ eq_refl). }
      cbn. repeat apply conj; reflexivity.
Qed.

Lemma X15_login_survives_reload_witness :
  signs_in (Response 200 (Some Samples.loginBody)) = Some Samples.loginBody
  /\ user (Eff.exec (mountEffect Samples.sessionRuntime tenFree
                       Samples.parseProfile NetworkError)
             (init tenFree
                (localStorage
                   (Eff.exec (handleGoogleLogin Samples.sessionRuntime tenFree
                                (Response 200 (Some Samples.loginBody)))
                             Samples.firstVisit))))
     = ann.
Proof.
  split; [reflexivity|].
  apply (X15_login_survives_reload Samples.sessionRuntime tenFree
           Samples.parseProfile (Response 200 (Some Samples.loginBody))
           NetworkError Samples.loginBody "tok" Samples.firstVisit);
    try reflexivity; discriminate.
Defined.

End UseAuthSession.

(* ===================================================================== *)
(** * The library browser: search, catalog loading, downloads             *)
(* ===================================================================== *)

Module LibraryBrowsing.

Import Js Library LibrarySpec LibraryFlow JsFacts ListFacts LibraryFilter.



Lemma toLowerCase_empty (t : string) : toLowerCase t = "" <-> t = "".
Proof. destruct t; cbn; split; congruence. Qed.



(** X18. The search ignores the letter case of the term: two terms that
    differ only in letter case select the same entries. *)
Theorem X18_term_case_is_ignored (L : list Domain) (t t' c : string) :
  toLowerCase t = toLowerCase t' -> filtered L t c = filtered L t' c.
Proof.
  intros Hcase. unfold filtered, matchesSearch.
  assert (He : String.eqb t "" = String.eqb t' "").
  { destruct (String.eqb_spec t "") as [->|Hne];
      destruct (String.eqb_spec t' "") as [->|Hne']; try reflexivity.
    - symmetry in Hcase. apply (proj1 (toLowerCase_empty t')) in Hcase.
      contradiction.
    - apply (proj1 (toLowerCase_empty t)) in Hcase. contradiction. }
  rewrite He, Hcase. reflexivity.
Qed.

Lemma X18_term_case_witness :
  toLowerCase "RoAd" = toLowerCase "road"
  /\ filtered [health; roads] "RoAd" "All" = filtered [health; roads] "road" "All".
Proof.
  split; [reflexivity|].
  apply X18_term_case_is_ignored. reflexivity.
Defined.




(** X21. An ok catalog reply without a category list is half applied.
    [fetchDomains] has already replaced the catalog when spreading the
    missing list throws: the catalog is the body's, while the category
    list and the list shown keep their previous values; the error is
    logged with one [console.error], no alert is shown and [loading] ends
    off. *)
Theorem X21_catalog_without_categories (reply : FetchReply Catalog)
  (data : Catalog) (w : World) :
  catalog_of reply = Some data ->
  body_categories data = None ->
  let w' := Eff.exec (fetchDomains reply) w in
  Eff.result (fetchDomains reply) w = Eff.Returned tt
  /\ domains w' = body_domains data
  /\ categories w' = categories w
  /\ filteredDomains w' = filteredDomains w
  /\ loading w' = false
  /\ calls (fetchDomains reply) w = [ConsoleError "Error fetching domains:"].
Proof.
  intros Hcat Hcats. cbv zeta.
  destruct reply as [|status [data'|]]; try discriminate.
  cbn in Hcat. destruct (ok status) eqn:Hok; [|discriminate].
  injection Hcat as ->.
  unfold calls, Eff.exec, Eff.result, fetchDomains, Eff.finally, Eff.try_catch.
  cbn. rewrite Hok. cbn. rewrite Hcats. cbn.
  rewrite skipn_own_length. repeat apply conj; reflexivity.
Qed.

Lemma X21_catalog_without_categories_witness :
  catalog_of (Response 200 (Some {| body_domains := [roads];
                                    body_categories := None |}))
  = Some {| body_domains := [roads]; body_categories := None |}
  /\ domains
       (Eff.exec (fetchDomains
                    (Response 200 (Some {| body_domains := [roads];
                                           body_categories := None |})))
                 browsing)
     = [roads].
Proof.
  split; [reflexivity|].
  apply (X21_catalog_without_categories
           (Response 200 (Some {| body_domains := [roads];
                                  body_categories := None |}))
           {| body_domains := [roads]; body_categories := None |}
           browsing eq_refl eq_refl).
Defined.

(** What one [handleDownload] does with a domain selected: the calls it
    makes, what becomes of the confirmation, and what it leaves alone. *)
Lemma handleDownload_summary (p : Props) (b : Browser) (type : string)
  (w : World) (d : Domain) :
  selectedDomain w = Some d ->
  let w' := Eff.exec (handleDownload p b type) w in
  events w' = events w ++ downloadCalls p b type d
  /\ downloadModalOpen w'
     = (if negb (isPremium p) || handle_returned p b d then false
        else downloadModalOpen w)
  /\ selectedDomain w' = Some d
  /\ same_catalog w w'.
Proof.
  intros Hsel. cbv zeta.
  unfold Eff.exec, handleDownload, Eff.bind, Eff.gets.
  unfold downloadCalls, handle_returned, same_catalog. rewrite Hsel.
  destruct (isPremium p); cbn.
  2:{ rewrite Hsel. repeat apply conj; reflexivity. }
  unfold Eff.try_catch.
  destruct (folderId_present (gdrive_folder_id d)) as [folderId|]; cbn.
  2:{ rewrite Hsel. repeat apply conj; reflexivity. }
  destruct (confirm_answer b); cbn.
  2:{ rewrite Hsel. repeat apply conj; reflexivity. }
  destruct (open_result b); cbn; rewrite Hsel, <- ?app_assoc;
    repeat apply conj; reflexivity.
Qed.

(** X22. The storage folder is opened only for a premium user who
    confirmed.  Whenever [handleDownload] calls [window.open], a domain
    with a folder id is selected, the entitlement is premium, the user
    answered the confirmation for that domain with yes, and the address
    opened is the folder of the selected domain, in a new browsing
    context without opener or referrer. *)
Theorem X22_open_needs_premium_and_consent (p : Props) (b : Browser)
  (type : string) (w : World) (url target features : string) :
  In (WindowOpen url target features) (calls (handleDownload p b type) w) ->
  exists d folderId,
    selectedDomain w = Some d
    /\ folderId_present (gdrive_folder_id d) = Some folderId
    /\ isPremium p = true
    /\ confirm_answer b = true
    /\ In (Confirm (confirmMessage type d)) (calls (handleDownload p b type) w)
    /\ url = driveUrl folderId
    /\ target = "_blank"
    /\ features = "noopener,noreferrer".
Proof.
  unfold calls. destruct (selectedDomain w) as [d|] eqn:Hsel.
  2:{ unfold Eff.exec, handleDownload, Eff.bind, Eff.gets. rewrite Hsel. cbn.
      rewrite skipn_all_own. intros []. }
  destruct (handleDownload_summary p b type w d Hsel) as (Hev & _).
  rewrite Hev, skipn_own_length. unfold downloadCalls.
  destruct (isPremium p) eqn:Hp; cbn [negb].
  2:{ cbn. intuition discriminate. }
  destruct (folderId_present (gdrive_folder_id d)) as [folderId|] eqn:Hf.
  2:{ cbn. intuition discriminate. }
  destruct (confirm_answer b) eqn:Hc; cbn [negb].
  2:{ cbn. intuition discriminate. }
  intros Hin. exists d, folderId.
  assert (Hopen : WindowOpen url target features
                  = WindowOpen (driveUrl folderId) "_blank" "noopener,noreferrer").
  { destruct (open_result b); cbn in Hin;
      repeat (destruct Hin as [Hin|Hin]; try discriminate Hin;
              try (symmetry; exact Hin)); contradiction. }
  injection Hopen as -> -> ->.
  repeat apply conj; try reflexivity; try assumption. cbn. left. reflexivity.
Qed.

Lemma X22_open_witness :
  In (WindowOpen (driveUrl "1AbCdEf") "_blank" "noopener,noreferrer")
     (calls (handleDownload premiumProps userConfirms_popupBlocked "zip")
            (modalOpenOn roads))
  /\ exists d folderId,
       selectedDomain (modalOpenOn roads) = Some d
       /\ folderId_present (gdrive_folder_id d) = Some folderId
       /\ isPremium premiumProps = true
       /\ confirm_answer userConfirms_popupBlocked = true
       /\ In (Confirm (confirmMessage "zip" d))
             (calls (handleDownload premiumProps userConfirms_popupBlocked "zip")
                    (modalOpenOn roads))
       /\ driveUrl "1AbCdEf" = driveUrl folderId
       /\ "_blank" = "_blank"
       /\ "noopener,noreferrer" = "noopener,noreferrer".
Proof.
  assert (H : In (WindowOpen (driveUrl "1AbCdEf") "_blank" "noopener,noreferrer")
                 (calls (handleDownload premiumProps userConfirms_popupBlocked "zip")
                        (modalOpenOn roads)))
    by (vm_compute; right; left; reflexivity).
  split; [exact H|].
  exact (X22_open_needs_premium_and_consent premiumProps
           userConfirms_popupBlocked "zip" (modalOpenOn roads) _ _ _ H).
Defined.

(** X23. A download that yields no usable window handle leaves the
    confirmation as it was, so the user can retry.  With a domain selected
    and a premium entitlement, whenever the folder link is missing, the
    user cancels, [window.open] answers with no usable handle (which is
    also what a browser that follows the HTML Standard answers when it
    does open the tab, the call passing [noopener]) or [window.open]
    throws, [handleDownload] leaves [downloadModalOpen] unchanged; when
    [window.open] answers with no usable handle the calls are the
    confirmation, the [window.open] and the popup alert.  Only an answer
    with a usable handle closes the confirmation.  Without a
    premium entitlement it closes the confirmation and calls the upgrade
    prompt, and nothing else.  In every case the catalog, the search and
    the selection are untouched. *)
Theorem X23_failed_download_can_be_retried (p : Props) (b : Browser)
  (type : string) (w : World) (d : Domain) :
  selectedDomain w = Some d ->
  let w' := Eff.exec (handleDownload p b type) w in
  (isPremium p = true ->
   handle_returned p b d = false ->
   downloadModalOpen w' = downloadModalOpen w)
  /\ (isPremium p = true ->
      handle_returned p b d = true ->
      downloadModalOpen w' = false)
  /\ (forall folderId,
        isPremium p = true ->
        folderId_present (gdrive_folder_id d) = Some folderId ->
        confirm_answer b = true ->
        open_result b = Blocked ->
        downloadModalOpen w' = downloadModalOpen w
        /\ calls (handleDownload p b type) w
           = [Confirm (confirmMessage type d);
              WindowOpen (driveUrl folderId) "_blank" "noopener,noreferrer";
              Alert popupBlockedMessage])
  /\ (isPremium p = false ->
      downloadModalOpen w' = false
      /\ calls (handleDownload p b type) w = [OpenUpgradeModal])
  /\ selectedDomain w' = Some d
  /\ same_catalog w w'.
Proof.
  intros Hsel. cbv zeta.
  destruct (handleDownload_summary p b type w d Hsel)
    as (Hev & Hopen & Hsame & Hcat).
  unfold calls. rewrite Hev, Hopen, skipn_own_length. unfold downloadCalls.
  split; [intros Hp Hh; rewrite Hp, Hh; reflexivity|].
  split; [intros Hp Hh; rewrite Hp, Hh; reflexivity|].
  split.
  { intros folderId Hp Hf Hc Ho. unfold handle_returned.
    rewrite Hp, Hf, Hc, Ho. split; reflexivity. }
  split; [intros Hp; rewrite Hp; split; reflexivity|].
  split; assumption.
Qed.

Lemma X23_failed_download_witness :
  selectedDomain (modalOpenOn roads) = Some roads
  /\ isPremium premiumProps = true
  /\ handle_returned premiumProps userConfirms_popupBlocked roads = false
  /\ downloadModalOpen
       (Eff.exec (handleDownload premiumProps userConfirms_popupBlocked "zip")
                 (modalOpenOn roads))
     = true.
Proof.
  split; [reflexivity|]. split; [reflexivity|]. split; [reflexivity|].
  apply (proj1 (X23_failed_download_can_be_retried premiumProps
                  userConfirms_popupBlocked "zip" (modalOpenOn roads) roads
                  eq_refl) eq_refl eq_refl).
Defined.

(** X24. From click to the popup alert.  For a premium user, clicking a
    domain that has a folder id and then confirming a download for which
    [window.open] answers with no usable handle (which is also what a
    browser that follows the HTML Standard answers when it does open the
    tab, the call passing [noopener]) makes exactly three calls: the
    confirmation question for the clicked domain, the opening of that
    domain's folder, and the popup alert.  No tracking call is made, the
    confirmation is still open and the clicked domain is selected,
    whatever was selected before. *)
Theorem X24_click_then_download (p : Props) (b : Browser) (type : string)
  (w : World) (d : Domain) (folderId : string) :
  isPremium p = true ->
  folderId_present (gdrive_folder_id d) = Some folderId ->
  confirm_answer b = true ->
  open_result b = Blocked ->
  let flow := Eff.bind (handleDomainClick p d)
                       (fun _ => handleDownload p b type) in
  calls flow w
  = [Confirm (confirmMessage type d);
     WindowOpen (driveUrl folderId) "_blank" "noopener,noreferrer";
     Alert popupBlockedMessage]
  /\ (forall i t, ~ In (TrackDownload i t) (calls flow w))
  /\ downloadModalOpen (Eff.exec flow w) = true
  /\ selectedDomain (Eff.exec flow w) = Some d.
Proof.
  intros Hp Hf Hc Ho. cbv zeta.
  set (w1 := Eff.exec (handleDomainClick p d) w).
  assert (Hw1 : selectedDomain w1 = Some d /\ events w1 = events w
                /\ downloadModalOpen w1 = true).
  { unfold w1, Eff.exec, handleDomainClick. rewrite Hp. cbn. auto. }
  destruct Hw1 as (Hsel & Hev1 & Hopen1).
  assert (Hflow : Eff.exec (Eff.bind (handleDomainClick p d)
                              (fun _ => handleDownload p b type)) w
                  = Eff.exec (handleDownload p b type) w1).
  { unfold w1, Eff.exec, Eff.bind at 1, handleDomainClick. rewrite Hp.
    reflexivity. }
  unfold calls. rewrite Hflow.
  destruct (handleDownload_summary p b type w1 d Hsel)
    as (Hev & Hopen & Hsame & _).
  rewrite Hev, Hopen, Hev1, Hopen1, skipn_own_length.
  unfold downloadCalls, handle_returned. rewrite Hp, Hf, Hc, Ho. cbn.
  split; [reflexivity|]. split; [|split; [reflexivity | exact Hsame]].
  intros i t. intuition discriminate.
Qed.

Lemma X24_click_then_download_witness :
  isPremium premiumProps = true
  /\ folderId_present (gdrive_folder_id roads) = Some "1AbCdEf"
  /\ confirm_answer userConfirms_popupBlocked = true
  /\ open_result userConfirms_popupBlocked = Blocked
  /\ calls (Eff.bind (handleDomainClick premiumProps roads)
                     (fun _ => handleDownload premiumProps
                                 userConfirms_popupBlocked "zip"))
           (modalOpenOn health)
     = [Confirm (confirmMessage "zip" roads);
        WindowOpen (driveUrl "1AbCdEf") "_blank" "noopener,noreferrer";
        Alert popupBlockedMessage].
Proof.
  repeat (split; [reflexivity|]).
  apply (X24_click_then_download premiumProps userConfirms_popupBlocked "zip"
           (modalOpenOn health) roads "1AbCdEf" eq_refl eq_refl eq_refl eq_refl).
Defined.

End LibraryBrowsing.

(* ===================================================================== *)
(** * The upgrade prompt: closing the flow, creating the order            *)
(* ===================================================================== *)

Module UpgradeHandlerFlow.

Import Js UpgradePrompt UpgradePromptSpec UpgradePromptFacts.

Lemma success_is_not_support (response : PaymentResponse) :
  successMessage <> supportMessage response.
Proof.
  unfold successMessage, supportMessage. cbv [String.append]. discriminate.
Qed.

(** X25. The checkout success handler either closes the flow or tells the
    user to contact support, never both and never neither: on every
    reply of the verification endpoint, every behaviour of the refresh
    callback and every user record, [onClose] is called exactly when the
    support alert is not shown, and it is called only after the success
    alert. *)
Theorem X25_closed_or_support (p : Props) (response : PaymentResponse)
  (reply : FetchReply Value) (w : World) :
  (In Close (calls (handler p response reply) w)
   <-> ~ In (Alert (supportMessage response)) (calls (handler p response reply) w))
  /\ (In Close (calls (handler p response reply) w) ->
      In (Alert successMessage) (calls (handler p response reply) w)).
Proof.
  pose proof (success_is_not_support response) as Hne.
  unfold calls. rewrite handler_run.
  destruct (nullish (user p)).
  { rewrite ListFacts.skipn_own_length. cbn. split; [split|];
      intuition discriminate. }
  destruct (verified reply).
  - destruct (onUpgradeSuccess p) as [[|]|];
      rewrite ListFacts.skipn_own_length; cbn; (split; [split|]);
      try (intuition (discriminate || congruence)).
  - rewrite ListFacts.skipn_own_length. cbn. split; [split|];
      intuition discriminate.
Qed.

Lemma X25_closed_or_support_witness :
  In Close (calls (handler annRefreshing payment verifyOk) [])
  /\ In (Alert successMessage) (calls (handler annRefreshing payment verifyOk) []).
Proof.
  assert (H : In Close (calls (handler annRefreshing payment verifyOk) []))
    by (vm_compute; do 3 right; left; reflexivity).
  split; [exact H|].
  exact (proj2 (X25_closed_or_support annRefreshing payment verifyOk []) H).
Defined.

End UpgradeHandlerFlow.

Module UpgradeOrderFlow.

Import Js UpgradeOrder.

(** [handleUpgrade] by cases. *)
Lemma handleUpgrade_run (host : HostErrors) (widget : Widget) (user : Value)
  (reply : FetchReply Value) (w : World) :
  Eff.exec (handleUpgrade host widget user reply) w
  = w ++
    if notSignedIn user then [Alert "Please login first to upgrade"]
    else
      CreateOrder 49900 "INR"
      :: match order_of reply, widget with
         | Some orderData, WidgetLoaded =>
           [OpenCheckout (checkoutOptions user orderData)]
         | Some _, WidgetMissing =>
           [ConsoleError "Error:";
            Alert ("Failed to initiate payment: "
                   +:+ not_constructor_message host)]
         | None, _ =>
           [ConsoleError "Error:";
            Alert ("Failed to initiate payment: "
                   +:+ match reply with
                       | NetworkError => fetch_failed_message host
                       | Response status body =>
                         if negb (ok status) then "Failed to create order"
                         else match body with
                              | None => json_failed_message host
                              | Some _ => null_property_message host
                              end
                       end)]
         end.
Proof.
  unfold Eff.exec, handleUpgrade, order_of, initiationFailed, emit, Eff.bind,
    Eff.modify.
  destruct (notSignedIn user); [reflexivity|]. cbn.
  destruct reply as [|status [orderData|]]; cbn.
  - rewrite <- !app_assoc. reflexivity.
  - destruct (ok status); cbn; [|rewrite <- !app_assoc; reflexivity].
    destruct (nullish orderData); cbn; [rewrite <- !app_assoc; reflexivity|].
    destruct widget; cbn; rewrite <- !app_assoc; reflexivity.
  - destruct (ok status); cbn; rewrite <- !app_assoc; reflexivity.
Qed.

(** X26. No order without a signed-in user, no checkout without an order.
    [handleUpgrade] asks the backend for an order only when the user
    record is there with a truthy [google_id], and always for 49900 INR;
    it opens the checkout widget only after that request, when the order
    endpoint answered ok with a body and the widget script is loaded, and
    then with the order id, amount and currency of that body.  A user who
    is not signed in only sees the login alert. *)
Theorem X26_order_and_checkout_gates (host : HostErrors) (widget : Widget)
  (user : Value) (reply : FetchReply Value) (w : World) :
  (notSignedIn user = true ->
   calls (handleUpgrade host widget user reply) w
   = [Alert "Please login first to upgrade"])
  /\ (forall a c,
        In (CreateOrder a c) (calls (handleUpgrade host widget user reply) w) ->
        notSignedIn user = false /\ a = 49900 /\ c = "INR")
  /\ (forall o,
        In (OpenCheckout o) (calls (handleUpgrade host widget user reply) w) ->
        notSignedIn user = false
        /\ widget = WidgetLoaded
        /\ In (CreateOrder 49900 "INR")
              (calls (handleUpgrade host widget user reply) w)
        /\ exists orderData,
             order_of reply = Some orderData
             /\ o = checkoutOptions user orderData
             /\ order_id o = read orderData "order_id"
             /\ amount o = read orderData "amount"
             /\ currency o = read orderData "currency").
Proof.
  unfold calls. rewrite handleUpgrade_run, ListFacts.skipn_own_length.
  destruct (notSignedIn user).
  { split; [reflexivity|]. split; cbn; intuition discriminate. }
  split; [discriminate|]. split.
  - intros a c [H|H].
    + injection H as <- <-. auto.
    + destruct (order_of reply), widget; cbn in H; intuition discriminate.
  - intros o [H|H]; [discriminate|].
    destruct (order_of reply) as [orderData|], widget; cbn in H;
      try (intuition discriminate).
    destruct H as [H|[]]. injection H as <-.
    repeat apply conj; try reflexivity.
    + left. reflexivity.
    + exists orderData. repeat apply conj; reflexivity.
Qed.

Lemma X26_order_and_checkout_witness :
  notSignedIn Null = true
  /\ calls (handleUpgrade Samples.hostErrors WidgetLoaded Null
              (Response 200 (Some Samples.orderBody))) []
     = [Alert "Please login first to upgrade"].
Proof.
  split; [reflexivity|].
  apply (proj1 (X26_order_and_checkout_gates Samples.hostErrors WidgetLoaded
                  Null (Response 200 (Some Samples.orderBody)) [])).
  reflexivity.
Defined.

(** X27. A payment that cannot be initiated is reported and goes no
    further.  For a signed-in user, when the order endpoint does not
    answer with an order or the widget script is not loaded,
    [handleUpgrade] makes exactly three calls: the order request, one
    [console.error], and one alert "Failed to initiate payment: " followed
    by the message of the error; the checkout is not opened.  For a
    response that is not ok the message is "Failed to create order". *)
Theorem X27_failed_initiation_is_reported (host : HostErrors) (widget : Widget)
  (user : Value) (reply : FetchReply Value) (w : World) :
  notSignedIn user = false ->
  order_of reply = None \/ widget = WidgetMissing ->
  (exists message,
      calls (handleUpgrade host widget user reply) w
      = [CreateOrder 49900 "INR"; ConsoleError "Error:";
         Alert ("Failed to initiate payment: " +:+ message)])
  /\ (forall o,
        ~ In (OpenCheckout o) (calls (handleUpgrade host widget user reply) w))
  /\ (forall status body,
        reply = Response status body -> ok status = false ->
        calls (handleUpgrade host widget user reply) w
        = [CreateOrder 49900 "INR"; ConsoleError "Error:";
           Alert "Failed to initiate payment: Failed to create order"]).
Proof.
  intros Hin Hfail. unfold calls.
  rewrite handleUpgrade_run, ListFacts.skipn_own_length, Hin.
  repeat apply conj.
  - destruct (order_of reply) as [orderData|].
    + destruct Hfail as [Hfail|Hw]; [discriminate | subst widget]. eauto.
    + destruct widget; eauto.
  - intros o.
    destruct (order_of reply) as [orderData|].
    + destruct Hfail as [Hfail|Hw]; [discriminate | subst widget]. cbn. intuition discriminate.
    + destruct widget; cbn; intuition discriminate.
  - intros status body -> Hok. cbn. rewrite Hok.
    destruct body; destruct widget; reflexivity.
Qed.

Lemma X27_failed_initiation_witness :
  notSignedIn UseAuthSpec.ann = false
  /\ order_of (Response 500 None) = None
  /\ calls (handleUpgrade Samples.hostErrors WidgetLoaded UseAuthSpec.ann
              (Response 500 None)) []
     = [CreateOrder 49900 "INR"; ConsoleError "Error:";
        Alert "Failed to initiate payment: Failed to create order"].
Proof.
  split; [reflexivity|]. split; [reflexivity|].
  apply (proj2 (proj2 (X27_failed_initiation_is_reported Samples.hostErrors
                         WidgetLoaded UseAuthSpec.ann (Response 500 None) []
                         eq_refl (or_introl eq_refl)))
           500 None eq_refl eq_refl).
Defined.

End UpgradeOrderFlow.

(* ===================================================================== *)
(** * The library browser: the filter on the catalog as sent              *)
(* ===================================================================== *)

Module LibraryRawFacts.

Import Js LibraryRaw LibraryRawSpec JsFacts ListFacts.

Lemma get_prop (d : Value) (k0 k : string) (v : Value) :
  get d k0 = Some v -> get d k = Some (prop d k).
Proof. unfold prop. destruct d; cbn; intros H; congruence. Qed.

Lemma is_str_Str (v : Value) : is_str v = true -> exists s, v = Str s.
Proof. destruct v; cbn; intros H; try discriminate. eauto. Qed.

Lemma conforms_fields (d : Value) :
  conforms d = true ->
  exists n de,
    prop d "name" = Str n /\ prop d "description" = Str de
    /\ forall k, get d k = Some (prop d k).
Proof.
  unfold conforms. rewrite andb_true_iff. intros [Hn Hd].
  destruct (is_str_Str _ Hn) as [n En], (is_str_Str _ Hd) as [de Ed].
  exists n, de. repeat apply conj; try assumption.
  intros k. unfold prop in En.
  destruct (get d "name") as [v|] eqn:Hg; [|discriminate].
  exact (get_prop d "name" k v Hg).
Qed.


Section Host.

Context (toLowerCase : string -> string).

Lemma matchesSearch_conforms (t : string) (d : Value) :
  conforms d = true ->
  matchesSearch toLowerCase t d
  = Some (includesTerm toLowerCase (prop d "name") t
          || includesTerm toLowerCase (prop d "description") t).
Proof.
  intros Hc. destruct (conforms_fields d Hc) as (n & de & Hn & Hd & Hget).
  unfold matchesSearch. rewrite !Hget, Hn, Hd. cbn.
  destruct (includes (toLowerCase n) (toLowerCase t)); reflexivity.
Qed.

Lemma categoryIs_conforms (c : string) (d : Value) :
  conforms d = true ->
  categoryIs c d = Some (strict_eq_str (prop d "category") c).
Proof.
  intros Hc. destruct (conforms_fields d Hc) as (n & de & _ & _ & Hget).
  unfold categoryIs. rewrite Hget. reflexivity.
Qed.

Lemma filterArray_total (f : Value -> option bool) (g : Value -> bool)
  (l : list Value) :
  Forall (fun d => f d = Some (g d)) l ->
  filterArray f l = Some (List.filter g l).
Proof.
  induction 1 as [|d l Hd _ IH]; [reflexivity|].
  cbn. rewrite Hd, IH. destruct (g d); reflexivity.
Qed.



Lemma Forall_filter_keeps {A} (P : A -> Prop) (g : A -> bool) (l : list A) :
  Forall P l -> Forall P (List.filter g l).
Proof.
  induction 1 as [|x l Hx _ IH]; cbn; [constructor|].
  destruct (g x); [constructor; assumption | assumption].
Qed.



(** On a catalog that conforms to the data model the filter returns, and
    what it returns is one pass of the combined test. *)
Lemma filtered_conforms (L : list Value) (t c : string) :
  toLowerCase "" = "" ->
  Forall (fun d => conforms d = true) L ->
  filtered toLowerCase L t c = Some (List.filter (keeps toLowerCase t c) L).
Proof.
  intros Hempty HL. unfold filtered.
  assert (Hcat : forall l, Forall (fun d => conforms d = true) l ->
            filterArray (categoryIs c) l
            = Some (List.filter
                      (fun d => strict_eq_str (prop d "category") c) l)).
  { intros l Hl. apply filterArray_total.
    eapply Forall_impl; [exact Hl|]. intros d Hd.
    apply categoryIs_conforms, Hd. }
  assert (Hterm : forall l, Forall (fun d => conforms d = true) l ->
            filterArray (matchesSearch toLowerCase t) l
            = Some (List.filter
                      (fun d => includesTerm toLowerCase (prop d "name") t
                                || includesTerm toLowerCase
                                     (prop d "description") t) l)).
  { intros l Hl. apply filterArray_total.
    eapply Forall_impl; [exact Hl|]. intros d Hd.
    apply matchesSearch_conforms, Hd. }
  assert (Hall : forall l, Forall (fun d => conforms d = true) l ->
            List.filter
              (fun d => includesTerm toLowerCase (prop d "name") ""
                        || includesTerm toLowerCase (prop d "description") "") l
            = l).
  { intros l Hl. induction Hl as [|d l Hd _ IH]; [reflexivity|].
    cbn. destruct (conforms_fields d Hd) as (n & de & Hn & _).
    rewrite Hn. cbn. rewrite Hempty, includes_empty. cbn. rewrite IH.
    reflexivity. }
  unfold keeps.
  destruct (String.eqb c "All") eqn:Ec; destruct (String.eqb t "") eqn:Et;
    cbn [negb orb].
  - apply String.eqb_eq in Et as ->. rewrite Hall by exact HL. reflexivity.
  - apply Hterm, HL.
  - rewrite Hcat by exact HL. apply String.eqb_eq in Et as ->. f_equal.
    rewrite <- filter_both. symmetry. apply Hall.
    apply Forall_filter_keeps, HL.
  - rewrite Hcat by exact HL. rewrite Hterm by apply Forall_filter_keeps, HL.
    rewrite filter_both. reflexivity.
Qed.


End Host.





(** The typed filter of [Library] is this filter on catalogs that conform
    to the data model, with the lower-casing of the ASCII range. *)
Lemma filtered_refines (L : list Library.Domain) (t c : string) :
  filtered Js.toLowerCase (map encode L) t c
  = Some (map encode (Library.filtered L t c)).
Proof.
  rewrite filtered_conforms; [|reflexivity|].
  - rewrite LibraryFilter.filtered_one_pass. f_equal.
    induction L as [|d L IH]; [reflexivity|].
    cbn [map List.filter]. rewrite IH.
    assert (Hk : keeps Js.toLowerCase t c (encode d) = LibrarySpec.keeps t c d)
      by reflexivity.
    rewrite Hk. destruct (LibrarySpec.keeps t c d); reflexivity.
  - induction L as [|d L IH]; constructor; [reflexivity | exact IH].
Qed.






End LibraryRawFacts.
